(** * Conversation and User aggregates: a shallow embedding

    The two Mongoose models of the backend, [models/Conversation.js] and
    [models/User.js], embedded as state-passing Rocq functions.

    Conventions of the embedding.
    - A document is a record of its schema paths.  Paths with a schema
      [enum] are inductive types, [Date]s are milliseconds since the epoch
      in [Z], counters are integer-valued Numbers in [Z], strings are
      [string] (one [ascii] per code unit).
    - A method is a function from the receiver ([this]) to an outcome and
      the receiver afterwards.
    - A document carries the library's change tracking: whether it is
      new, and which of the paths the hooks ask about were modified.  An
      assignment marks its path modified when the document is new or the
      value differs from the one held.
    - [save()] first runs the schema's validators and rejects with a
      [ValidationError] when one fails; otherwise the [timestamps] option
      rewrites [updatedAt] if the document is new or modified, the schema's
      [pre('save')] hook runs, and the change tracking is reset.  Storage
      failures are not modelled.
    - Numbers are the integers they hold.  Number addition is integer
      addition as long as the operands and the sum are safe integers (at
      most 2^53 in magnitude); statements about exact sums say so.
    - Clock readings ([Date.now], [new Date()]) and the bcrypt primitives
      are inputs. *)

From Stdlib Require Import ZArith List String Ascii Bool Lia QArith Qround Sorted.
Import ListNotations.

Local Open Scope Z_scope.

(** ** Outcomes and methods *)

(** A thrown error (or the rejection reason of a promise): the
    constructor is the class, the argument the message.  Of a
    [ValidationError], whose message names the model and lists the failing
    paths, the model name is kept. *)
Inductive error : Type :=
| Error (message : string)
| TypeError (message : string)
| ValidationError (model : string).

(** What a call produces: a returned / resolved value, or a thrown /
    rejected error. *)
Inductive outcome (A : Type) : Type :=
| Value (a : A)
| Raised (e : error).

Arguments Value {A} a.
Arguments Raised {A} e.

(** A method over a receiver of type [S]. *)
Definition Method (S A : Type) : Type := S -> outcome A * S.

Definition ret {S A : Type} (a : A) : Method S A :=
  fun s => (Value a, s).

Definition bind {S A B : Type} (m : Method S A) (k : A -> Method S B)
  : Method S B :=
  fun s =>
    match m s with
    | (Value a, s') => k a s'
    | (Raised e, s') => (Raised e, s')
    end.

Definition throw {S A : Type} (e : error) : Method S A :=
  fun s => (Raised e, s).

Definition get {S : Type} : Method S S :=
  fun s => (Value s, s).

Definition modify {S : Type} (f : S -> S) : Method S unit :=
  fun s => (Value tt, f s).

Declare Scope method_scope.
Delimit Scope method_scope with method.
Notation "x <- m ;; k" := (bind m (fun x => k))
  (at level 61, m at next level, right associativity) : method_scope.
Notation "m ;; k" := (bind m (fun _ => k))
  (at level 61, right associativity) : method_scope.

(** The receiver after the call, and what the call produced. *)
Definition after {S A : Type} (m : Method S A) (s : S) : S := snd (m s).
Definition result {S A : Type} (m : Method S A) (s : S) : outcome A := fst (m s).

(** ** The JavaScript built-ins the models call *)

Module JS.

(** [Array.prototype.slice(start)] with [end] omitted: a negative [start]
    counts from the end and is clamped at 0, a non-negative one is clamped
    at the length. *)
Definition slice {A : Type} (start : Z) (l : list A) : list A :=
  let len := Z.of_nat (List.length l) in
  let k := if start <? 0 then Z.max (len + start) 0 else Z.min start len in
  skipn (Z.to_nat k) l.

(** [Array.prototype.push]. *)
Definition push {A : Type} (l : list A) (x : A) : list A := l ++ [x].

(** [arr[i]]; [None] stands for [undefined]. *)
Definition index {A : Type} (l : list A) (i : Z) : option A :=
  if i <? 0 then None else nth_error l (Z.to_nat i).

(** [String.prototype.substring(start, end)] on non-negative indices:
    both are clamped to the length and swapped when out of order. *)
Definition substring (s : string) (start stop : nat) : string :=
  let len := String.length s in
  let a := Nat.min start len in
  let b := Nat.min stop len in
  String.substring (Nat.min a b) (Nat.max a b - Nat.min a b) s.

(** White space and line terminators below code unit 256. *)
Definition isWhiteSpace (c : ascii) : bool :=
  let n := nat_of_ascii c in
  (Nat.eqb n 9 || Nat.eqb n 10 || Nat.eqb n 11 || Nat.eqb n 12
   || Nat.eqb n 13 || Nat.eqb n 32 || Nat.eqb n 160)%bool.

Fixpoint trimStart (s : string) : string :=
  match s with
  | EmptyString => EmptyString
  | String c s' => if isWhiteSpace c then trimStart s' else s
  end.

Fixpoint trimEnd (s : string) : string :=
  match s with
  | EmptyString => EmptyString
  | String c s' =>
      match trimEnd s' with
      | EmptyString => if isWhiteSpace c then EmptyString else String c EmptyString
      | r => String c r
      end
  end.

(** [String.prototype.trim], applied by the schema's [trim: true]. *)
Definition trim (s : string) : string := trimEnd (trimStart s).

(** [String.prototype.toLowerCase] on code units below 256: the letters
    A-Z and the accented capitals 192-222 (but not the multiplication sign
    215) move up by 32. *)
Definition lowerCode (n : nat) : nat :=
  if ((Nat.leb 65 n && Nat.leb n 90)
      || (Nat.leb 192 n && Nat.leb n 222 && negb (Nat.eqb n 215)))%bool
  then n + 32 else n.

Fixpoint toLowerCase (s : string) : string :=
  match s with
  | EmptyString => EmptyString
  | String c s' => String (ascii_of_nat (lowerCode (nat_of_ascii c))) (toLowerCase s')
  end.

(** Safe integers: where Number arithmetic on integers is exact. *)
Definition safeInteger (z : Z) : Prop := - 2 ^ 53 <= z <= 2 ^ 53.

End JS.

(** ** models/Conversation.js *)

Module Conversation.

(** *** messageSchema *)

Inductive messageType : Type := user | ai.

Inductive contentKind : Type := text | voice | image | file.

Record entity : Type := mkEntity {
  entityType : string;
  value : string;
  entityConfidence : option Q
}.

Record messageMetadata : Type := mkMetadata {
  voiceDuration : option Q;
  language : option string;
  confidence : option Q;
  emotions : list string;
  intent : option string;
  entities : list entity
}.

Definition noMetadata : messageMetadata :=
  mkMetadata None None None [] None [].

(** An embedded message document. *)
Record message : Type := mkMessage {
  type : messageType;
  content : string;
  contentType : contentKind;
  metadata : messageMetadata;
  timestamp : Z
}.

(** What a caller hands to [addMessage]: the paths with a schema default
    may be absent. *)
Record messageData : Type := mkMessageData {
  dataType : messageType;
  dataContent : string;
  dataContentType : option contentKind;
  dataMetadata : messageMetadata;
  dataTimestamp : option Z
}.

(** Casting to the sub-document schema, at clock reading [now]:
    [content] is trimmed, [contentType] defaults to ['text'] and
    [timestamp] to [Date.now]. *)
Definition castMessage (now : Z) (d : messageData) : message :=
  {| type := dataType d;
     content := JS.trim (dataContent d);
     contentType := match dataContentType d with Some k => k | None => text end;
     metadata := dataMetadata d;
     timestamp := match dataTimestamp d with Some t => t | None => now end |}.

Definition messageType_eqb (a b : messageType) : bool :=
  match a, b with
  | user, user | ai, ai => true
  | _, _ => false
  end.

Definition contentKind_eqb (a b : contentKind) : bool :=
  match a, b with
  | text, text | voice, voice | image, image | file, file => true
  | _, _ => false
  end.

(** *** conversationSchema *)

Inductive aiModelKind : Type := local | hybrid | cloud.

Inductive statusKind : Type := active | archived | deleted.

Definition statusKind_eqb (a b : statusKind) : bool :=
  match a, b with
  | active, active | archived, archived | deleted, deleted => true
  | _, _ => false
  end.

Record conversationSettings : Type := mkSettings {
  voiceEnabled : bool;
  settingsLanguage : string;
  contextWindow : Z
}.

Record conversationStats : Type := mkStats {
  totalMessages : Z;
  userMessages : Z;
  aiMessages : Z;
  voiceMessages : Z;
  duration : Q;
  tokensUsed : Z
}.

(** A conversation document in memory.  The last three fields are the
    library's change tracking: [isNew] until the first save that goes
    through, [messagesModified] what [this.isModified('messages')]
    answers, [othersModified] whether any other path is modified. *)
Record conversation : Type := mkConversation {
  userId : string;
  title : option string;
  messages : list message;
  summary : option string;
  tags : list string;
  aiModel : aiModelKind;
  settings : conversationSettings;
  stats : conversationStats;
  status : statusKind;
  isFavorite : bool;
  createdAt : Z;
  updatedAt : Z;
  lastMessageAt : Z;
  isNew : bool;
  messagesModified : bool;
  othersModified : bool
}.

Definition set_messages (ms : list message) (c : conversation) : conversation :=
  mkConversation (userId c) (title c) ms (summary c) (tags c) (aiModel c)
    (settings c) (stats c) (status c) (isFavorite c) (createdAt c)
    (updatedAt c) (lastMessageAt c) (isNew c) (messagesModified c)
    (othersModified c).

Definition set_stats (st : conversationStats) (c : conversation) : conversation :=
  mkConversation (userId c) (title c) (messages c) (summary c) (tags c)
    (aiModel c) (settings c) st (status c) (isFavorite c) (createdAt c)
    (updatedAt c) (lastMessageAt c) (isNew c) (messagesModified c)
    (othersModified c).

Definition set_status (s : statusKind) (c : conversation) : conversation :=
  mkConversation (userId c) (title c) (messages c) (summary c) (tags c)
    (aiModel c) (settings c) (stats c) s (isFavorite c) (createdAt c)
    (updatedAt c) (lastMessageAt c) (isNew c) (messagesModified c)
    (othersModified c).

Definition set_isFavorite (b : bool) (c : conversation) : conversation :=
  mkConversation (userId c) (title c) (messages c) (summary c) (tags c)
    (aiModel c) (settings c) (stats c) (status c) b (createdAt c)
    (updatedAt c) (lastMessageAt c) (isNew c) (messagesModified c)
    (othersModified c).

Definition set_updatedAt (t : Z) (c : conversation) : conversation :=
  mkConversation (userId c) (title c) (messages c) (summary c) (tags c)
    (aiModel c) (settings c) (stats c) (status c) (isFavorite c) (createdAt c)
    t (lastMessageAt c) (isNew c) (messagesModified c) (othersModified c).

Definition set_lastMessageAt (t : Z) (c : conversation) : conversation :=
  mkConversation (userId c) (title c) (messages c) (summary c) (tags c)
    (aiModel c) (settings c) (stats c) (status c) (isFavorite c) (createdAt c)
    (updatedAt c) t (isNew c) (messagesModified c) (othersModified c).

Definition set_messagesModified (b : bool) (c : conversation) : conversation :=
  mkConversation (userId c) (title c) (messages c) (summary c) (tags c)
    (aiModel c) (settings c) (stats c) (status c) (isFavorite c) (createdAt c)
    (updatedAt c) (lastMessageAt c) (isNew c) b (othersModified c).

Definition set_othersModified (b : bool) (c : conversation) : conversation :=
  mkConversation (userId c) (title c) (messages c) (summary c) (tags c)
    (aiModel c) (settings c) (stats c) (status c) (isFavorite c) (createdAt c)
    (updatedAt c) (lastMessageAt c) (isNew c) (messagesModified c) b.

(** The change tracking after a save that went through. *)
Definition reset (c : conversation) : conversation :=
  mkConversation (userId c) (title c) (messages c) (summary c) (tags c)
    (aiModel c) (settings c) (stats c) (status c) (isFavorite c) (createdAt c)
    (updatedAt c) (lastMessageAt c) false false false.

(** [this.isModified()]. *)
Definition isModified (c : conversation) : bool :=
  (messagesModified c || othersModified c)%bool.

(** An assignment to a path other than [messages] marks the document
    modified when it is new or the value [changed]. *)
Definition marked (changed : bool) (c : conversation) : conversation :=
  if (isNew c || changed)%bool then set_othersModified true c else c.

(** [this.status = s], [this.isFavorite = b], [this.lastMessageAt = t]. *)
Definition assign_status (s : statusKind) (c : conversation) : conversation :=
  marked (negb (statusKind_eqb (status c) s)) (set_status s c).

Definition assign_isFavorite (b : bool) (c : conversation) : conversation :=
  marked (negb (Bool.eqb (isFavorite c) b)) (set_isFavorite b c).

Definition assign_lastMessageAt (t : Z) (c : conversation) : conversation :=
  marked (negb (lastMessageAt c =? t)) (set_lastMessageAt t c).

(** [this.messages.push(m)]: an array mutation always marks its path. *)
Definition pushMessage (m : message) (c : conversation) : conversation :=
  set_messagesModified true (set_messages (JS.push (messages c) m) c).

(** [new Conversation({ userId, title, aiModel })]: [title] goes through
    the schema's trim, every other path takes its schema default.  The
    three [Date.now] defaults are three readings of the clock, in schema
    order: [createdAt], [updatedAt], [lastMessageAt]. *)
Definition newConversation (owner : string) (ttl : option string)
    (model : aiModelKind) (tCreated tUpdated tLast : Z) : conversation :=
  {| userId := owner;
     title := option_map JS.trim ttl;
     messages := [];
     summary := None;
     tags := [];
     aiModel := model;
     settings := mkSettings true "en" 10;
     stats := mkStats 0 0 0 0 0%Q 0;
     status := active;
     isFavorite := false;
     createdAt := tCreated;
     updatedAt := tUpdated;
     lastMessageAt := tLast;
     isNew := true;
     messagesModified := false;
     othersModified := true |}.

(** *** Validation *)

(** [title]: [maxlength: 100]. *)
Definition validTitle (t : option string) : bool :=
  match t with
  | Some s => (String.length s <=? 100)%nat
  | None => true
  end.

(** A message's [content]: [required], which the empty string fails. *)
Definition validMessage (m : message) : bool :=
  negb (String.eqb (content m) "").

(** The validators that a document of the modelled types can fail. *)
Definition valid (c : conversation) : bool :=
  (validTitle (title c) && forallb validMessage (messages c))%bool.

(** *** Hooks and methods *)

Definition count (p : message -> bool) (ms : list message) : Z :=
  Z.of_nat (List.length (filter p ms)).

Definition isUser (m : message) : bool := messageType_eqb (type m) user.
Definition isAi (m : message) : bool := messageType_eqb (type m) ai.
Definition isVoice (m : message) : bool := contentKind_eqb (contentType m) voice.

(** The four counters the hook assigns, each from the whole sequence;
    [duration] and [tokensUsed] are left as they are. *)
Definition recount (ms : list message) (st : conversationStats)
  : conversationStats :=
  {| totalMessages := Z.of_nat (List.length ms);
     userMessages := count isUser ms;
     aiMessages := count isAi ms;
     voiceMessages := count isVoice ms;
     duration := duration st;
     tokensUsed := tokensUsed st |}.

(** The hook of [timestamps: true]: a new document gets its [createdAt]
    as [updatedAt], a modified one the clock reading [now]. *)
Definition timestamps (now : Z) (c : conversation) : conversation :=
  if (isNew c || isModified c)%bool
  then set_updatedAt (if isNew c then createdAt c else now) c
  else c.

(** [conversationSchema.pre('save', ...)]. *)
Definition preSave (c : conversation) : conversation :=
  if messagesModified c then
    let c := set_stats (recount (messages c) (stats c)) c in
    if 0 <? Z.of_nat (List.length (messages c)) then
      match JS.index (messages c) (Z.of_nat (List.length (messages c)) - 1) with
      | Some m => set_lastMessageAt (timestamp m) c
      | None => c
      end
    else c
  else c.

(** [this.save()], with [tSave] the clock at the save: validation, then
    the hooks, then the change tracking is reset; resolves to the
    document.  A failed validation rejects and leaves the document as it
    is. *)
Definition save (tSave : Z) : Method conversation conversation :=
  (c <- get ;;
   if valid c then
     (modify (timestamps tSave) ;;
      modify preSave ;;
      modify reset ;;
      get)
   else throw (ValidationError "Conversation"))%method.

(** [addMessage(messageData)]; [tPush] is the clock when the pushed value
    is cast, [tNow] the one [new Date()] reads. *)
Definition addMessage (d : messageData) (tPush tNow tSave : Z)
  : Method conversation conversation :=
  (modify (pushMessage (castMessage tPush d)) ;;
   modify (assign_lastMessageAt tNow) ;;
   save tSave)%method.

(** [getContextMessages(limit = 10)]. *)
Definition getContextMessages (limit : option Z)
  : Method conversation (list message) :=
  let limit := match limit with Some n => n | None => 10 end in
  (c <- get ;; ret (JS.slice (- limit) (messages c)))%method.

(** [generateTitle()]. *)
Definition generateTitle : Method conversation string :=
  (c <- get ;;
   let firstUserMessage := find isUser (messages c) in
   match firstUserMessage with
   | Some m =>
       let content := content m in
       ret (if (50 <? String.length content)%nat
            then (JS.substring content 0 50 ++ "...")%string
            else content)
   | None => ret "New Conversation"%string
   end)%method.

(** [calculateDuration()].  Subtracting two [Date]s gives milliseconds;
    the Number division by 1000 is taken exactly, in [Q]. *)
Definition calculateDuration : Method conversation Q :=
  (c <- get ;;
   if (Z.of_nat (List.length (messages c)) <? 2) then ret 0%Q
   else
     let firstMessage := JS.index (messages c) 0 in
     let lastMessage :=
       JS.index (messages c) (Z.of_nat (List.length (messages c)) - 1) in
     match firstMessage, lastMessage with
     | Some f, Some l => ret (inject_Z (timestamp l - timestamp f) / 1000)%Q
     | _, _ => throw (TypeError "Cannot read properties of undefined")
     end)%method.

(** [archive()], [delete()], [restore()], [toggleFavorite()]. *)
Definition archive (tSave : Z) : Method conversation conversation :=
  (modify (assign_status archived) ;; save tSave)%method.

Definition delete (tSave : Z) : Method conversation conversation :=
  (modify (assign_status deleted) ;; save tSave)%method.

Definition restore (tSave : Z) : Method conversation conversation :=
  (modify (assign_status active) ;; save tSave)%method.

Definition toggleFavorite (tSave : Z) : Method conversation conversation :=
  (modify (fun c => assign_isFavorite (negb (isFavorite c)) c) ;;
   save tSave)%method.

End Conversation.

(** ** models/User.js *)

Module User.

Inductive themeKind : Type := light | dark | autoTheme.

Inductive aiModelKind : Type := local | hybrid | cloud.

Record userPreferences : Type := mkPreferences {
  theme : themeKind;
  voiceEnabled : bool;
  voiceSpeed : Q;
  voiceVolume : Q;
  aiModel : aiModelKind;
  offlineMode : bool;
  language : string
}.

Record userStats : Type := mkStats {
  conversations : Z;
  messages : Z;
  voiceInteractions : Z;
  totalUsageTime : Z
}.

(** A user document in memory.  The last three fields are the library's
    change tracking: [isNew] until the first save that goes through,
    [passwordModified] what [this.isModified('password')] answers,
    [othersModified] whether any other path is modified. *)
Record user : Type := mkUser {
  username : string;
  email : string;
  password : string;
  avatar : option string;
  preferences : userPreferences;
  stats : userStats;
  isActive : bool;
  lastActive : Z;
  createdAt : Z;
  updatedAt : Z;
  isNew : bool;
  passwordModified : bool;
  othersModified : bool
}.

Definition set_password (p : string) (u : user) : user :=
  mkUser (username u) (email u) p (avatar u) (preferences u) (stats u)
    (isActive u) (lastActive u) (createdAt u) (updatedAt u) (isNew u)
    (passwordModified u) (othersModified u).

Definition set_stats (st : userStats) (u : user) : user :=
  mkUser (username u) (email u) (password u) (avatar u) (preferences u) st
    (isActive u) (lastActive u) (createdAt u) (updatedAt u) (isNew u)
    (passwordModified u) (othersModified u).

Definition set_isActive (b : bool) (u : user) : user :=
  mkUser (username u) (email u) (password u) (avatar u) (preferences u)
    (stats u) b (lastActive u) (createdAt u) (updatedAt u) (isNew u)
    (passwordModified u) (othersModified u).

Definition set_lastActive (t : Z) (u : user) : user :=
  mkUser (username u) (email u) (password u) (avatar u) (preferences u)
    (stats u) (isActive u) t (createdAt u) (updatedAt u) (isNew u)
    (passwordModified u) (othersModified u).

Definition set_updatedAt (t : Z) (u : user) : user :=
  mkUser (username u) (email u) (password u) (avatar u) (preferences u)
    (stats u) (isActive u) (lastActive u) (createdAt u) t (isNew u)
    (passwordModified u) (othersModified u).

Definition set_passwordModified (b : bool) (u : user) : user :=
  mkUser (username u) (email u) (password u) (avatar u) (preferences u)
    (stats u) (isActive u) (lastActive u) (createdAt u) (updatedAt u)
    (isNew u) b (othersModified u).

Definition set_othersModified (b : bool) (u : user) : user :=
  mkUser (username u) (email u) (password u) (avatar u) (preferences u)
    (stats u) (isActive u) (lastActive u) (createdAt u) (updatedAt u)
    (isNew u) (passwordModified u) b.

(** The change tracking after a save that went through. *)
Definition reset (u : user) : user :=
  mkUser (username u) (email u) (password u) (avatar u) (preferences u)
    (stats u) (isActive u) (lastActive u) (createdAt u) (updatedAt u)
    false false false.

(** [this.isModified()]. *)
Definition isModified (u : user) : bool :=
  (passwordModified u || othersModified u)%bool.

(** An assignment to a path other than [password] marks the document
    modified when it is new or the value [changed]. *)
Definition marked (changed : bool) (u : user) : user :=
  if (isNew u || changed)%bool then set_othersModified true u else u.

(** [user.password = p], as the password route does before saving. *)
Definition assignPassword (p : string) (u : user) : user :=
  if (isNew u || negb (String.eqb (password u) p))%bool
  then set_passwordModified true (set_password p u)
  else set_password p u.

(** [user.isActive = b], as the account route does before saving, and
    [this.lastActive = t]. *)
Definition assign_isActive (b : bool) (u : user) : user :=
  marked (negb (Bool.eqb (isActive u) b)) (set_isActive b u).

Definition assign_lastActive (t : Z) (u : user) : user :=
  marked (negb (lastActive u =? t)) (set_lastActive t u).

(** What [getPublicProfile] hands out: the document as a plain object
    with the [password] key deleted. *)
Record publicProfile : Type := mkPublicProfile {
  profileUsername : string;
  profileEmail : string;
  profileAvatar : option string;
  profilePreferences : userPreferences;
  profileStats : userStats;
  profileIsActive : bool;
  profileLastActive : Z;
  profileCreatedAt : Z;
  profileUpdatedAt : Z
}.

(** *** Validation *)

(** [username]: required, 3 to 30 characters; [email]: required;
    [password]: required, at least 6 characters; [preferences.voiceSpeed]
    within 0.5 and 2; [preferences.voiceVolume] within 0 and 1. *)
Definition valid (u : user) : bool :=
  ((3 <=? String.length (username u))%nat
   && (String.length (username u) <=? 30)%nat
   && negb (String.eqb (email u) "")
   && (6 <=? String.length (password u))%nat
   && Qle_bool (1 # 2) (voiceSpeed (preferences u))
   && Qle_bool (voiceSpeed (preferences u)) 2
   && Qle_bool 0 (voiceVolume (preferences u))
   && Qle_bool (voiceVolume (preferences u)) 1)%bool.

(** The schema's setters on [email], [lowercase] and [trim], which the
    library also applies to an email in a query filter. *)
Definition normalizeEmail (s : string) : string :=
  JS.toLowerCase (JS.trim s).

(** The hook of [timestamps: true]. *)
Definition timestamps (now : Z) (u : user) : user :=
  if (isNew u || isModified u)%bool
  then set_updatedAt (if isNew u then createdAt u else now) u
  else u.

Section Bcrypt.

(** [bcrypt.hash(data, salt)] and [bcrypt.compare(data, encrypted)]. *)
Variable bcrypt_hash : string -> string -> string.
Variable bcrypt_compare : string -> string -> bool.

(** [userSchema.pre('save', ...)]; [salt] is what [bcrypt.genSalt(12)]
    yields when the hook gets that far. *)
Definition preSave (salt : string) (u : user) : user :=
  if negb (passwordModified u) then u
  else set_password (bcrypt_hash (password u) salt) u.

(** [this.save()], with [tSave] the clock at the save: validation, then
    the hooks, then the change tracking is reset; resolves to the
    document.  A failed validation rejects and leaves the document as it
    is. *)
Definition save (salt : string) (tSave : Z) : Method user user :=
  (u <- get ;;
   if valid u then
     (modify (timestamps tSave) ;;
      modify (preSave salt) ;;
      modify reset ;;
      get)
   else throw (ValidationError "User"))%method.

(** [comparePassword(candidatePassword)]. *)
Definition comparePassword (candidatePassword : string) : Method user bool :=
  (u <- get ;; ret (bcrypt_compare candidatePassword (password u)))%method.

(** [getPublicProfile()]. *)
Definition getPublicProfile : Method user publicProfile :=
  (u <- get ;;
   ret (mkPublicProfile (username u) (email u) (avatar u) (preferences u)
          (stats u) (isActive u) (lastActive u) (createdAt u)
          (updatedAt u)))%method.

(** [this.findOne({ email })] over the stored users: the filter's email
    is cast through the schema's setters before it is compared. *)
Definition findOne (mail : string) : Method (list user) (option user) :=
  (store <- get ;;
   ret (find (fun u => String.eqb (email u) (normalizeEmail mail)) store))%method.

(** [findByCredentials(email, password)], a static of the model. *)
Definition findByCredentials (mail pass : string) : Method (list user) user :=
  (found <- findOne mail ;;
   match found with
   | None => throw (Error "Invalid login credentials")
   | Some u =>
       match result (comparePassword pass) u with
       | Value isMatch =>
           if negb isMatch then throw (Error "Invalid login credentials")
           else ret u
       | Raised e => throw e
       end
   end)%method.

(** [updateLastActive()]; [now] is what [new Date()] reads. *)
Definition updateLastActive (now : Z) (salt : string) (tSave : Z)
  : Method user user :=
  (modify (assign_lastActive now) ;; save salt tSave)%method.

(** The [switch] of [updateStats]: no [default] branch.  Each [+=] is an
    assignment of the sum, which differs from the value held when the
    increment is not 0. *)
Definition switchType (type : string) (increment : Z) (u : user) : user :=
  let st := stats u in
  let changed := negb (increment =? 0) in
  if (type =? "conversation")%string then
    marked changed
      (set_stats (mkStats (conversations st + increment) (messages st)
                    (voiceInteractions st) (totalUsageTime st)) u)
  else if (type =? "message")%string then
    marked changed
      (set_stats (mkStats (conversations st) (messages st + increment)
                    (voiceInteractions st) (totalUsageTime st)) u)
  else if (type =? "voice")%string then
    marked changed
      (set_stats (mkStats (conversations st) (messages st)
                    (voiceInteractions st + increment) (totalUsageTime st)) u)
  else if (type =? "usage")%string then
    marked changed
      (set_stats (mkStats (conversations st) (messages st)
                    (voiceInteractions st) (totalUsageTime st + increment)) u)
  else u.

(** [updateStats(type, increment = 1)]. *)
Definition updateStats (type : string) (increment : option Z) (salt : string)
    (tSave : Z) : Method user user :=
  let increment := match increment with Some n => n | None => 1 end in
  (modify (switchType type increment) ;; save salt tSave)%method.

End Bcrypt.

End User.

(** ** Conversation.getUserConversations *)

Module Listing.
Import Conversation.

(** The strings of the [status] enum. *)
Definition statusName (s : statusKind) : string :=
  match s with
  | active => "active"
  | archived => "archived"
  | deleted => "deleted"
  end.

(** The [options] object; an absent key takes the default of the
    destructuring. *)
Record listOptions : Type := mkListOptions {
  optStatus : option string;
  optLimit : option Z;
  optSkip : option Z;
  optSortBy : option string;
  optSortOrder : option string
}.

Definition noOptions : listOptions := mkListOptions None None None None None.

(** The filter [{ userId, status }] and the sort [{ [sortBy]: -1 | 1 }]. *)
Record listQuery : Type := mkListQuery {
  queryUserId : string;
  queryStatus : string
}.

Record sortSpec : Type := mkSortSpec {
  sortField : string;
  sortDirection : Z
}.

(** A document matches the filter when both paths are equal to it. *)
Definition matches (q : listQuery) (c : conversation) : bool :=
  (String.eqb (userId c) (queryUserId q)
   && String.eqb (statusName (status c)) (queryStatus q))%bool.

Section Driver.

(** What the query builder's [sort], [skip], [limit] and [populate] do is
    the database driver's business. *)
Context {populated : Type}.
Variable sort : sortSpec -> list conversation -> list conversation.
Variable skip : Z -> list conversation -> list conversation.
Variable limit : Z -> list conversation -> list conversation.
Variable populate : conversation -> populated.

(** [getUserConversations(userId, options = {})], a static of the model,
    over the stored conversations. *)
Definition getUserConversations (owner : string) (options : option listOptions)
  : Method (list conversation) (list populated) :=
  let options := match options with Some o => o | None => noOptions end in
  let status := match optStatus options with Some s => s | None => "active"%string end in
  let limit_ := match optLimit options with Some n => n | None => 20 end in
  let skip_ := match optSkip options with Some n => n | None => 0 end in
  let sortBy := match optSortBy options with Some f => f | None => "lastMessageAt"%string end in
  let sortOrder := match optSortOrder options with Some o => o | None => "desc"%string end in
  let query := mkListQuery owner status in
  let sort_ := mkSortSpec sortBy (if String.eqb sortOrder "desc" then -1 else 1) in
  (store <- get ;;
   ret (map populate
          (limit limit_ (skip skip_ (sort sort_ (filter (matches query) store))))))%method.

End Driver.

End Listing.

(** ** routes/ai.js: the simulated assistant *)

Module Assistant.

(** The double quote character. *)
Definition dq : string := String (ascii_of_nat 34) EmptyString.

(** The [responses] array of [processWithLocalAI], for a given message. *)
Definition responses (message : string) : list string :=
  [ ("I understand you said: " ++ dq ++ message ++ dq
     ++ ". I'm your personal AI assistant and I'm here to help you with various tasks. What would you like me to do?")%string;
    ("That's an interesting point about " ++ dq ++ message ++ dq
     ++ ". Let me think about that and provide you with a helpful response.")%string;
    ("I've processed your message: " ++ dq ++ message ++ dq
     ++ ". As your AI assistant, I can help you with information, tasks, and engaging conversations.")%string;
    ("Thank you for sharing that with me. Regarding " ++ dq ++ message ++ dq
     ++ ", I'm here to assist you in any way I can.")%string;
    ("I've received your message and I'm processing it. " ++ dq ++ message ++ dq
     ++ " - let me provide you with a thoughtful response.")%string ].

(** [Math.floor(random * n)], with [random] what [Math.random()] drew. *)
Definition randomIndex (random : Q) (n : nat) : Z :=
  Qfloor (random * inject_Z (Z.of_nat n)).

(** [processWithLocalAI(message, context = [])]; the simulated delay is
    left out.  [None] stands for [undefined]. *)
Definition processWithLocalAI {context : Type} (message : string)
    (ctx : option (list context)) (random : Q) : option string :=
  JS.index (responses message) (randomIndex random (List.length (responses message))).

Definition sampleTranscriptions : list string :=
  [ "Hello, how are you today?"%string;
    "Can you help me with a question?"%string;
    "What's the weather like?"%string;
    "Tell me a joke"%string;
    "I need some assistance"%string ].

(** [transcribeAudio(audioData)]; the simulated delay is left out. *)
Definition transcribeAudio {audio : Type} (audioData : audio) (random : Q)
  : option string :=
  JS.index sampleTranscriptions (randomIndex random (List.length sampleTranscriptions)).

(** The title both message routes give a conversation they create:
    [message.substring(0, 50) + (message.length > 50 ? '...' : '')]. *)
Definition initialTitle (message : string) : string :=
  (JS.substring message 0 50
   ++ (if (50 <? String.length message)%nat then "..." else ""))%string.

End Assistant.

(** ** The route handlers, from the point where the caller is authenticated
    and the document has been looked up *)

Module Routes.

(** The [stats] object of [GET /:id/stats]. *)
Record messageTypesView : Type := mkMessageTypes {
  viewText : Z;
  viewVoice : Z;
  viewImage : Z;
  viewFile : Z
}.

Record statsView : Type := mkStatsView {
  viewTotalMessages : Z;
  viewUserMessages : Z;
  viewAiMessages : Z;
  viewVoiceMessages : Z;
  viewDuration : Q;
  viewTokensUsed : Z;
  averageResponseTime : string;
  messageTypes : messageTypesView
}.

(** The JSON bodies the handlers send. *)
Inductive body : Type :=
| Failure (error : string)
| Success (message : string)
| SuccessFavorite (isFavorite : bool) (message : string)
| SuccessStats (stats : statsView) (message : string)
| SuccessLogin (user : User.publicProfile) (token : string) (message : string).

(** [res.status(code).json(body)]; [res.json(body)] answers 200. *)
Record reply : Type := mkReply {
  code : Z;
  payload : body
}.

(** JavaScript truthiness of an optional string: [undefined] and the empty
    string are falsy. *)
Definition truthy (s : option string) : bool :=
  match s with
  | Some s => negb (String.eqb s "")
  | None => false
  end.

Section ConversationRoutes.
Import Conversation.

(** [requester] is [req.user._id], [found] what [Conversation.findById]
    gave, [tSave] the clock at the save; the second component is the
    document after the handler. *)
Definition archiveRoute (tSave : Z) (requester : string)
    (found : option conversation)
  : reply * option conversation :=
  match found with
  | None => (mkReply 404 (Failure "Conversation not found"), None)
  | Some conversation =>
      if negb (String.eqb (userId conversation) requester) then
        (mkReply 403 (Failure "Access denied"), Some conversation)
      else
        match archive tSave conversation with
        | (Value _, c) =>
            (mkReply 200 (Success "Conversation archived successfully"), Some c)
        | (Raised _, c) =>
            (mkReply 500 (Failure "Failed to archive conversation"), Some c)
        end
  end.

Definition deleteRoute (tSave : Z) (requester : string)
    (found : option conversation)
  : reply * option conversation :=
  match found with
  | None => (mkReply 404 (Failure "Conversation not found"), None)
  | Some conversation =>
      if negb (String.eqb (userId conversation) requester) then
        (mkReply 403 (Failure "Access denied"), Some conversation)
      else
        match delete tSave conversation with
        | (Value _, c) =>
            (mkReply 200 (Success "Conversation deleted successfully"), Some c)
        | (Raised _, c) =>
            (mkReply 500 (Failure "Failed to delete conversation"), Some c)
        end
  end.

Definition restoreRoute (tSave : Z) (requester : string)
    (found : option conversation)
  : reply * option conversation :=
  match found with
  | None => (mkReply 404 (Failure "Conversation not found"), None)
  | Some conversation =>
      if negb (String.eqb (userId conversation) requester) then
        (mkReply 403 (Failure "Access denied"), Some conversation)
      else
        match restore tSave conversation with
        | (Value _, c) =>
            (mkReply 200 (Success "Conversation restored successfully"), Some c)
        | (Raised _, c) =>
            (mkReply 500 (Failure "Failed to restore conversation"), Some c)
        end
  end.

Definition favoriteRoute (tSave : Z) (requester : string)
    (found : option conversation)
  : reply * option conversation :=
  match found with
  | None => (mkReply 404 (Failure "Conversation not found"), None)
  | Some conversation =>
      if negb (String.eqb (userId conversation) requester) then
        (mkReply 403 (Failure "Access denied"), Some conversation)
      else
        match toggleFavorite tSave conversation with
        | (Value _, c) =>
            (mkReply 200
               (SuccessFavorite (isFavorite c)
                  ("Conversation "
                   ++ (if isFavorite c then "added to" else "removed from")
                   ++ " favorites")%string),
             Some c)
        | (Raised _, c) =>
            (mkReply 500 (Failure "Failed to toggle favorite"), Some c)
        end
  end.

(** What [POST /process-text] does first when no conversation is named:
    it constructs one, titled after the message, and appends the message
    as a user message.  [language] is the user's preferred language, for
    which 'en' stands in when it is empty. *)
Definition userText (message language : string) : messageData :=
  mkMessageData user message (Some text)
    (mkMetadata None
       (Some (if String.eqb language "" then "en"%string else language))
       None [] None [])
    None.

Definition startWithText (owner message language : string)
    (model : aiModelKind) (tCreated tUpdated tLast tPush tNow tSave : Z)
  : outcome conversation * conversation :=
  addMessage (userText message language) tPush tNow tSave
    (newConversation owner (Some (Assistant.initialTitle message)) model
       tCreated tUpdated tLast).

(** [GET /:id/stats]. *)
Definition statsRoute (requester : string) (found : option conversation)
  : reply * option conversation :=
  match found with
  | None => (mkReply 404 (Failure "Conversation not found"), None)
  | Some conversation =>
      if negb (String.eqb (userId conversation) requester) then
        (mkReply 403 (Failure "Access denied"), Some conversation)
      else
        match calculateDuration conversation with
        | (Value seconds, c) =>
            let byKind k :=
              count (fun m => contentKind_eqb (contentType m) k) (messages c) in
            let view :=
              {| viewTotalMessages := totalMessages (stats c);
                 viewUserMessages := userMessages (stats c);
                 viewAiMessages := aiMessages (stats c);
                 viewVoiceMessages := voiceMessages (stats c);
                 viewDuration := seconds;
                 viewTokensUsed := tokensUsed (stats c);
                 averageResponseTime := "0.5s";
                 messageTypes :=
                   mkMessageTypes (byKind text) (byKind voice) (byKind image)
                     (byKind file) |} in
            (mkReply 200 (SuccessStats view "Stats retrieved successfully"), Some c)
        | (Raised _, c) =>
            (mkReply 500 (Failure "Failed to get conversation stats"), Some c)
        end
  end.

End ConversationRoutes.

Section UserRoutes.
Import User.

Variable bcrypt_hash : string -> string -> string.
Variable bcrypt_compare : string -> string -> bool.

(** [jwt.sign({ userId: user._id }, secret, { expiresIn: '7d' })]. *)
Variable jwt_sign : user -> string.

(** [PUT /password]; [found] is what [User.findById] gave for the token's
    user, [salt] what the save would draw, [tSave] the clock at the save. *)
Definition passwordRoute (found : option user)
    (currentPassword newPassword : option string) (salt : string) (tSave : Z)
  : reply * option user :=
  match found with
  | None => (mkReply 404 (Failure "User not found"), None)
  | Some user =>
      if (negb (truthy currentPassword) || negb (truthy newPassword))%bool then
        (mkReply 400 (Failure "Current and new password are required"), Some user)
      else
        match currentPassword, newPassword with
        | Some current, Some fresh =>
            if (String.length fresh <? 6)%nat then
              (mkReply 400 (Failure "New password must be at least 6 characters"),
               Some user)
            else
              match comparePassword bcrypt_compare current user with
              | (Value isMatch, user) =>
                  if negb isMatch then
                    (mkReply 400 (Failure "Current password is incorrect"), Some user)
                  else
                    match save bcrypt_hash salt tSave (assignPassword fresh user) with
                    | (Value _, user) =>
                        (mkReply 200 (Success "Password changed successfully"),
                         Some user)
                    | (Raised _, user) =>
                        (mkReply 500 (Failure "Failed to change password"), Some user)
                    end
              | (Raised _, user) =>
                  (mkReply 500 (Failure "Failed to change password"), Some user)
              end
        | _, _ =>
            (mkReply 400 (Failure "Current and new password are required"), Some user)
        end
  end.

(** [DELETE /account]. *)
Definition accountRoute (found : option user) (salt : string) (tSave : Z)
  : reply * option user :=
  match found with
  | None => (mkReply 404 (Failure "User not found"), None)
  | Some user =>
      match save bcrypt_hash salt tSave (assign_isActive false user) with
      | (Value _, user) =>
          (mkReply 200 (Success "Account deleted successfully"), Some user)
      | (Raised _, user) =>
          (mkReply 500 (Failure "Failed to delete account"), Some user)
      end
  end.

(** [POST /login] over the stored users.  [updateLastActive()] is not
    awaited: its assignment of [lastActive] has happened when the profile
    is taken, its save has not. *)
Definition loginRoute (mail pass : option string) (now : Z)
    (store : list user) : reply :=
  if (negb (truthy mail) || negb (truthy pass))%bool then
    mkReply 400 (Failure "Email and password are required")
  else
    match mail, pass with
    | Some mail, Some pass =>
        match result (findByCredentials bcrypt_compare mail pass) store with
        | Value user =>
            let user := assign_lastActive now user in
            let token := jwt_sign user in
            match result getPublicProfile user with
            | Value profile =>
                mkReply 200 (SuccessLogin profile token "Login successful")
            | Raised _ => mkReply 401 (Failure "Invalid credentials")
            end
        | Raised _ => mkReply 401 (Failure "Invalid credentials")
        end
    | _, _ => mkReply 400 (Failure "Email and password are required")
    end.

End UserRoutes.

End Routes.

(** ** Vocabulary of the specification: conversations *)

Module ConversationTerms.
Import Conversation.

(** How many messages have a given type, or a given content type. *)
Fixpoint countType (t : messageType) (ms : list message) : Z :=
  match ms with
  | [] => 0
  | m :: rest =>
      (if messageType_eqb (type m) t then 1 else 0) + countType t rest
  end.

Fixpoint countContent (k : contentKind) (ms : list message) : Z :=
  match ms with
  | [] => 0
  | m :: rest =>
      (if contentKind_eqb (contentType m) k then 1 else 0) + countContent k rest
  end.

(** The last element of the sequence, when there is one. *)
Fixpoint finalMessage (ms : list message) : option message :=
  match ms with
  | [] => None
  | [m] => Some m
  | _ :: rest => finalMessage rest
  end.

(** The derived counters agree with the sequence. *)
Definition statsConsistent (c : conversation) : Prop :=
  totalMessages (stats c) = Z.of_nat (List.length (messages c))
  /\ userMessages (stats c) = countType user (messages c)
  /\ aiMessages (stats c) = countType ai (messages c)
  /\ userMessages (stats c) + aiMessages (stats c) = totalMessages (stats c)
  /\ voiceMessages (stats c) = countContent voice (messages c).

(** One [addMessage] call: what is appended and the three clock
    readings. *)
Record append : Type := mkAppend {
  appended : messageData;
  pushedAt : Z;
  setAt : Z;
  savedAt : Z
}.

Definition callAppend (a : append) : Method conversation conversation :=
  addMessage (appended a) (pushedAt a) (setAt a) (savedAt a).

(** The document in memory after the call, saved or not. *)
Definition runAppend (a : append) (c : conversation) : conversation :=
  after (callAppend a) c.

(** The documents persisted by a sequence of appends: one per append
    whose save went through. *)
Fixpoint trace (c : conversation) (ops : list append) : list conversation :=
  match ops with
  | [] => []
  | a :: rest =>
      match callAppend a c with
      | (Value saved, _) => saved :: trace saved rest
      | (Raised _, kept) => trace kept rest
      end
  end.

(** The timestamp the appended message ends up with. *)
Definition stamp (a : append) : Z :=
  match dataTimestamp (appended a) with
  | Some t => t
  | None => pushedAt a
  end.

(** Documents in memory that arise from a construction, in which the
    [lastMessageAt] default read [born] from the clock, followed by method
    calls. *)
Inductive reachable (born : Z) : conversation -> Prop :=
| reach_new owner ttl model tCreated tUpdated :
    reachable born (newConversation owner ttl model tCreated tUpdated born)
| reach_addMessage c d tPush tNow tSave :
    reachable born c -> reachable born (after (addMessage d tPush tNow tSave) c)
| reach_archive c tSave :
    reachable born c -> reachable born (after (archive tSave) c)
| reach_delete c tSave :
    reachable born c -> reachable born (after (delete tSave) c)
| reach_restore c tSave :
    reachable born c -> reachable born (after (restore tSave) c)
| reach_toggleFavorite c tSave :
    reachable born c -> reachable born (after (toggleFavorite tSave) c).

(** The [n] most recent messages, in arrival order. *)
Definition mostRecent (n : nat) (ms : list message) : list message :=
  rev (firstn n (rev ms)).

(** The first [n] characters of a string. *)
Definition firstChars (n : nat) (s : string) : string :=
  string_of_list_ascii (firstn n (list_ascii_of_string s)).

Definition endsWith (suffix s : string) : Prop :=
  exists p, s = (p ++ suffix)%string.

(** Sample documents. *)
Definition says (t : messageType) (s : string) (at_ : option Z) : messageData :=
  mkMessageData t s None noMetadata at_.

Definition spoken (s : string) : messageData :=
  mkMessageData user s (Some voice) noMetadata None.

Definition fresh : conversation :=
  newConversation "alice" None local 1000 1000 1000.

(** A construction during which the clock ticked. *)
Definition ticked : conversation :=
  newConversation "alice" None local 1001 1002 1003.

Definition hello : append := mkAppend (says user "Hello" None) 2000 2001 2002.
Definition hi : append := mkAppend (says ai "Hi!" None) 12000 12001 12002.
Definition backdated : append :=
  mkAppend (says user "earlier" (Some 500)) 13000 13001 13002.
Definition blank : append := mkAppend (says user "   " None) 14000 14001 14002.

Definition greeted : conversation := runAppend hi (runAppend hello fresh).

Definition eighty : string :=
  "0123456789012345678901234567890123456789012345678901234567890123456789abcdefghij".

Definition longWinded : conversation :=
  runAppend (mkAppend (says user eighty None) 3000 3001 3002)
    (runAppend (mkAppend (says ai "Welcome" None) 2000 2001 2002) fresh).

End ConversationTerms.

(** ** Vocabulary of the specification: users *)

Module UserTerms.
Import User.

(** A user method call that can change the document, with the salt its
    [save()] would draw and the clock at that save. *)
Inductive operation : Type :=
| callComparePassword (candidate : string)
| callGetPublicProfile
| callUpdateLastActive (now : Z) (salt : string) (tSave : Z)
| callUpdateStats (type : string) (increment : option Z) (salt : string)
    (tSave : Z)
| callSave (salt : string) (tSave : Z).

Section Bcrypt.

Variable bcrypt_hash : string -> string -> string.
Variable bcrypt_compare : string -> string -> bool.

Definition perform (u : user) (o : operation) : user :=
  match o with
  | callComparePassword candidate =>
      after (comparePassword bcrypt_compare candidate) u
  | callGetPublicProfile => after getPublicProfile u
  | callUpdateLastActive now salt tSave =>
      after (updateLastActive bcrypt_hash now salt tSave) u
  | callUpdateStats type increment salt tSave =>
      after (updateStats bcrypt_hash type increment salt tSave) u
  | callSave salt tSave => after (save bcrypt_hash salt tSave) u
  end.

End Bcrypt.

(** The increment an [updateStats] call applies is not negative. *)
Definition growing (o : operation) : Prop :=
  match o with
  | callUpdateStats _ (Some n) _ _ => 0 <= n
  | _ => True
  end.

(** No counter of [a] exceeds its counterpart in [b]. *)
Definition statsLe (a b : userStats) : Prop :=
  conversations a <= conversations b
  /\ messages a <= messages b
  /\ voiceInteractions a <= voiceInteractions b
  /\ totalUsageTime a <= totalUsageTime b.

(** The increment in force. *)
Definition delta (increment : option Z) : Z :=
  match increment with Some n => n | None => 1 end.

(** The kinds [updateStats] has a branch for. *)
Definition kinds : list string :=
  ["conversation"; "message"; "voice"; "usage"]%string.

Definition counted (type : string) : bool :=
  existsb (String.eqb type) kinds.

(** An exact sum of Numbers: both operands and the sum are safe
    integers. *)
Definition exactSum (a b : Z) : Prop :=
  JS.safeInteger a /\ JS.safeInteger b /\ JS.safeInteger (a + b).

(** A document as the store hands it out: not new, nothing modified. *)
Definition loaded (u : user) : Prop :=
  isNew u = false /\ passwordModified u = false /\ othersModified u = false.

(** A stand-in for bcrypt, for the sample runs. *)
Definition toyHash (data salt : string) : string :=
  ("$2a$12$" ++ salt ++ "." ++ data)%string.

Definition toyCompare (data encrypted : string) : bool :=
  String.eqb (toyHash data "NaCl") encrypted.

(** Sample documents. *)
Definition alice : user :=
  {| username := "alice";
     email := "alice@example.com";
     password := toyHash "wonderland" "NaCl";
     avatar := None;
     preferences := mkPreferences dark true 1 (8 # 10) local true "en";
     stats := mkStats 3 40 2 15;
     isActive := true;
     lastActive := 1000;
     createdAt := 1000;
     updatedAt := 1000;
     isNew := false;
     passwordModified := false;
     othersModified := false |}.

Definition bob : user :=
  {| username := "bob";
     email := "bob@example.com";
     password := toyHash "builder" "NaCl";
     avatar := None;
     preferences := mkPreferences light true 1 (8 # 10) cloud false "en";
     stats := mkStats 0 0 0 0;
     isActive := true;
     lastActive := 2000;
     createdAt := 2000;
     updatedAt := 2000;
     isNew := false;
     passwordModified := false;
     othersModified := false |}.

Definition directory : list user := [alice; bob].

(** [alice] with a new password assigned and not yet saved, and with one
    that is too short. *)
Definition rekeyed : user := assignPassword "looking-glass" alice.
Definition shortKeyed : user := assignPassword "abc" alice.

End UserTerms.

(** ** Further vocabulary *)

Module MoreTerms.
Import Conversation ConversationTerms.

(** The message an append stores. *)
Definition stored (a : append) : message :=
  castMessage (pushedAt a) (appended a).

(** The document as an append presents it to [save()]. *)
Definition pushed (a : append) (c : conversation) : conversation :=
  assign_lastMessageAt (setAt a) (pushMessage (stored a) c).

(** The document in memory after a sequence of appends. *)
Definition runAppends (c : conversation) (ops : list append) : conversation :=
  fold_left (fun c a => runAppend a c) ops c.

Definition oneIf (b : bool) : Z := if b then 1 else 0.

(** The paths no append touches. *)
Definition sameHeader (c c' : conversation) : Prop :=
  userId c' = userId c /\ title c' = title c /\ summary c' = summary c
  /\ tags c' = tags c /\ aiModel c' = aiModel c /\ settings c' = settings c
  /\ status c' = status c /\ isFavorite c' = isFavorite c
  /\ createdAt c' = createdAt c.

(** A document as the store hands it out: not new, nothing modified. *)
Definition saved (c : conversation) : Prop :=
  isNew c = false /\ messagesModified c = false /\ othersModified c = false.

(** A status transition: [archive], [delete] and [restore] are the three
    instances. *)
Definition transition (s : statusKind) (tSave : Z)
  : Method conversation conversation :=
  (modify (assign_status s) ;; save tSave)%method.

(** A conversation that was deleted after two messages. *)
Definition binned : conversation := after (delete 20000) greeted.

(** Stored conversations: two of alice's, one of them deleted, and one of
    bob's. *)
Definition shelf : list conversation :=
  [greeted; binned; newConversation "bob" None local 5000 5000 5000].

(** A driver for the sample runs: insertion order, and [skip] and [limit]
    as prefixes dropped and kept. *)
Definition sampleSort (_ : Listing.sortSpec) (l : list conversation)
  : list conversation := l.
Definition sampleSkip (n : Z) (l : list conversation) : list conversation :=
  skipn (Z.to_nat n) l.
Definition sampleLimit (n : Z) (l : list conversation) : list conversation :=
  firstn (Z.to_nat n) l.
Definition samplePopulate (c : conversation) : conversation := c.

(** The handlers that act on one conversation of the caller and save
    it, each given the clock at its save. *)
Definition savingRoutes
  : list (Z -> string -> option conversation
          -> Routes.reply * option conversation) :=
  [Routes.archiveRoute; Routes.deleteRoute; Routes.restoreRoute;
   Routes.favoriteRoute].

(** What it is for a handler to be guarded: 404 without a conversation,
    403 for another caller than the owner, both without touching the
    document; for the owner the status code [codeFor] gives, and a
    document with the owner and messages it had. *)
Definition guarded
    (route : string -> option conversation
             -> Routes.reply * option conversation)
    (codeFor : conversation -> Z)
    (requester : string) (found : option conversation) : Prop :=
  let out := route requester found in
  (found = None ->
   out = (Routes.mkReply 404 (Routes.Failure "Conversation not found"), None))
  /\ (forall c, found = Some c -> userId c <> requester ->
      out = (Routes.mkReply 403 (Routes.Failure "Access denied"), Some c))
  /\ (forall c, found = Some c -> userId c = requester ->
      Routes.code (fst out) = codeFor c
      /\ exists c', snd out = Some c'
                    /\ messages c' = messages c /\ userId c' = userId c).

(** A conversation whose title was stored without validation. *)
Definition overTitled : conversation :=
  mkConversation "alice"
    (Some (eighty ++ eighty)%string) [] None [] local (mkSettings true "en" 10)
    (mkStats 0 0 0 0 0 0) active false 1000 1000 1000 false false false.


(** The sums two [updateStats] calls with increments [d] and [d'] can
    form on the counters are exact. *)
Definition exactSums (st : User.userStats) (d d' : Z) : Prop :=
  Forall (fun x =>
            UserTerms.exactSum x d /\ UserTerms.exactSum x d'
            /\ UserTerms.exactSum (x + d) d' /\ UserTerms.exactSum (x + d') d
            /\ UserTerms.exactSum d d' /\ UserTerms.exactSum x (d + d'))
    [User.conversations st; User.messages st; User.voiceInteractions st;
     User.totalUsageTime st].

(** [alice] after her account was deactivated. *)
Definition dormant : User.user := User.set_isActive false UserTerms.alice.

Definition sampleSign (u : User.user) : string :=
  ("token-for-" ++ User.username u)%string.

End MoreTerms.

(** ** Properties of the conversation aggregate *)

Module ConversationProps.
Import Conversation ConversationTerms MoreTerms.

Lemma count_countType (t : messageType) (ms : list message) :
  count (fun m => messageType_eqb (type m) t) ms = countType t ms.
Proof.
  unfold count.
  induction ms as [|m ms IH]; [reflexivity|].
  cbn [filter countType].
  destruct (messageType_eqb (type m) t); cbn [List.length].
  - rewrite Nat2Z.inj_succ, IH. lia.
  - rewrite IH. lia.
Qed.

Lemma count_countContent (k : contentKind) (ms : list message) :
  count (fun m => contentKind_eqb (contentType m) k) ms = countContent k ms.
Proof.
  unfold count.
  induction ms as [|m ms IH]; [reflexivity|].
  cbn [filter countContent].
  destruct (contentKind_eqb (contentType m) k); cbn [List.length].
  - rewrite Nat2Z.inj_succ, IH. lia.
  - rewrite IH. lia.
Qed.

Lemma countType_partition (ms : list message) :
  countType user ms + countType ai ms = Z.of_nat (List.length ms).
Proof.
  induction ms as [|m ms IH]; [reflexivity|].
  cbn [countType List.length]. rewrite Nat2Z.inj_succ.
  destruct (type m); cbn [messageType_eqb]; lia.
Qed.

Lemma index_final {A : Type} (l : list A) (x : A) :
  JS.index (l ++ [x]) (Z.of_nat (List.length (l ++ [x])) - 1) = Some x.
Proof.
  unfold JS.index. rewrite length_app. cbn [List.length].
  replace (Z.of_nat (List.length l + 1) - 1) with (Z.of_nat (List.length l)) by lia.
  destruct (Z.ltb_spec (Z.of_nat (List.length l)) 0) as [H|_]; [lia|].
  rewrite Nat2Z.id, nth_error_app2, Nat.sub_diag by apply Nat.le_refl.
  reflexivity.
Qed.

Lemma finalMessage_app (ms : list message) (m : message) :
  finalMessage (ms ++ [m]) = Some m.
Proof.
  induction ms as [|a ms IH]; [reflexivity|].
  cbn [app finalMessage]. rewrite IH.
  destruct ms; reflexivity.
Qed.

(** *** Saving *)

Lemma save_resolves (tSave : Z) (c : conversation) :
  valid c = true ->
  save tSave c
  = (Value (reset (preSave (timestamps tSave c))),
     reset (preSave (timestamps tSave c))).
Proof.
  intros H. unfold save, bind, get, modify. rewrite H. reflexivity.
Qed.

Lemma save_rejects (tSave : Z) (c : conversation) :
  valid c = false ->
  save tSave c = (Raised (ValidationError "Conversation"), c).
Proof.
  intros H. unfold save, bind, get, throw. rewrite H. reflexivity.
Qed.

Lemma valid_pushed (a : append) (c : conversation) :
  valid (pushed a c) = (valid c && validMessage (stored a))%bool.
Proof.
  unfold pushed, assign_lastMessageAt, marked, pushMessage, valid, JS.push.
  destruct (_ || _)%bool; cbn [title messages set_lastMessageAt
    set_messagesModified set_messages set_othersModified];
    rewrite forallb_app; cbn [forallb]; rewrite andb_true_r, andb_assoc;
    reflexivity.
Qed.

Lemma callAppend_unfold (a : append) (c : conversation) :
  callAppend a c = save (savedAt a) (pushed a c).
Proof. reflexivity. Qed.

(** What an append that is saved leaves behind, field by field. *)
Lemma append_saved (a : append) (c : conversation) :
  valid (pushed a c) = true ->
  let ms := (messages c ++ [stored a])%list in
  let c' :=
    mkConversation (userId c) (title c) ms (summary c) (tags c) (aiModel c)
      (settings c) (recount ms (stats c)) (status c) (isFavorite c)
      (createdAt c) (if isNew c then createdAt c else savedAt a)
      (timestamp (stored a)) false false false in
  callAppend a c = (Value c', c').
Proof.
  intros Hv ms c'.
  rewrite callAppend_unfold, save_resolves by exact Hv.
  assert (E : reset (preSave (timestamps (savedAt a) (pushed a c))) = c').
  { assert (Hpos : (0 <? Z.of_nat (List.length ms)) = true).
    { apply Z.ltb_lt. unfold ms. rewrite length_app. cbn. lia. }
    pose proof (index_final (messages c) (stored a)) as Hidx. fold ms in Hidx.
    unfold c'. clear Hv c'.
    destruct c as [o ti old su tg mo se st sk fv tc tu tl nw mm om].
    cbn [messages] in ms, Hpos, Hidx.
    unfold pushed, assign_lastMessageAt, marked, pushMessage, JS.push,
      timestamps, isModified, preSave.
    cbn [isNew messagesModified othersModified set_lastMessageAt
         set_messagesModified set_messages set_othersModified set_updatedAt
         set_stats messages lastMessageAt userId title summary tags aiModel
         settings stats status isFavorite createdAt updatedAt].
    fold ms.
    destruct nw; destruct (negb (tl =? setAt a)); cbn [orb];
      cbn [isNew messagesModified othersModified set_lastMessageAt
           set_messagesModified set_messages set_othersModified set_updatedAt
           set_stats messages lastMessageAt userId title summary tags aiModel
           settings stats status isFavorite createdAt updatedAt orb];
      fold ms; rewrite ?Hpos, ?Hidx; try reflexivity. }
  rewrite E. reflexivity.
Qed.

(** What an append that is rejected leaves behind. *)
Lemma append_rejected (a : append) (c : conversation) :
  valid (pushed a c) = false ->
  callAppend a c = (Raised (ValidationError "Conversation"), pushed a c).
Proof.
  intros Hv. rewrite callAppend_unfold. apply save_rejects, Hv.
Qed.

Lemma pushed_messages (a : append) (c : conversation) :
  messages (pushed a c) = (messages c ++ [stored a])%list.
Proof.
  unfold pushed, assign_lastMessageAt, marked, pushMessage, JS.push.
  destruct (_ || _)%bool; reflexivity.
Qed.

Lemma append_saved_consistent (a : append) (c c' kept : conversation) :
  callAppend a c = (Value c', kept) -> statsConsistent c'.
Proof.
  intros E. destruct (valid (pushed a c)) eqn:Hv.
  - rewrite (append_saved a c Hv) in E. injection E as <- _.
    unfold statsConsistent, recount.
    cbn [stats messages totalMessages userMessages aiMessages voiceMessages].
    unfold isUser, isAi, isVoice.
    rewrite !count_countType, count_countContent.
    repeat split. apply countType_partition.
  - rewrite (append_rejected a c Hv) in E. discriminate E.
Qed.

Lemma append_saved_run (a : append) (c : conversation) :
  valid (pushed a c) = true ->
  callAppend a c = (Value (runAppend a c), runAppend a c).
Proof.
  intros Hv. unfold runAppend, after.
  pose proof (append_saved a c Hv) as E. cbv zeta in E. rewrite E.
  reflexivity.
Qed.

Lemma runAppend_messages (a : append) (c : conversation) :
  messages (runAppend a c) = (messages c ++ [stored a])%list.
Proof.
  unfold runAppend, after.
  destruct (valid (pushed a c)) eqn:Hv.
  - pose proof (append_saved a c Hv) as E. cbv zeta in E. rewrite E.
    reflexivity.
  - rewrite (append_rejected a c Hv). apply pushed_messages.
Qed.

Lemma runAppend_title (a : append) (c : conversation) :
  title (runAppend a c) = title c.
Proof.
  unfold runAppend, after.
  destruct (valid (pushed a c)) eqn:Hv.
  - pose proof (append_saved a c Hv) as E. cbv zeta in E. rewrite E.
    reflexivity.
  - rewrite (append_rejected a c Hv).
    unfold pushed, assign_lastMessageAt, marked, pushMessage.
    destruct (_ || _)%bool; reflexivity.
Qed.

Lemma runAppend_valid (a : append) (c : conversation) :
  valid (runAppend a c) = valid (pushed a c).
Proof.
  unfold valid. rewrite runAppend_title, runAppend_messages, pushed_messages.
  f_equal.
  unfold pushed, assign_lastMessageAt, marked, pushMessage.
  destruct (_ || _)%bool; reflexivity.
Qed.

Lemma runAppends_valid (c : conversation) (ops : list append) :
  valid (runAppends c ops) = true -> valid c = true.
Proof.
  revert c.
  induction ops as [|a ops IH]; intros c H; [exact H|].
  cbn [runAppends fold_left] in H. apply IH in H.
  rewrite runAppend_valid, valid_pushed in H.
  apply andb_prop in H. apply H.
Qed.

(** The appends are all persisted when the document is valid after the
    last push, and none is once the document is invalid. *)
Lemma trace_length (c : conversation) (ops : list append) :
  valid (runAppends c ops) = true ->
  List.length (trace c ops) = List.length ops.
Proof.
  revert c.
  induction ops as [|a ops IH]; intros c H; [reflexivity|].
  cbn [runAppends fold_left] in H. cbn [trace].
  pose proof (runAppends_valid _ _ H) as Hr.
  rewrite runAppend_valid in Hr.
  rewrite (append_saved_run a c Hr). cbn [List.length].
  f_equal. apply IH, H.
Qed.

Lemma trace_invalid (c : conversation) (ops : list append) :
  valid c = false -> trace c ops = [].
Proof.
  revert c.
  induction ops as [|a ops IH]; intros c Hv; [reflexivity|].
  cbn [trace].
  assert (Hp : valid (pushed a c) = false).
  { rewrite valid_pushed, Hv. reflexivity. }
  rewrite (append_rejected a c Hp). apply IH, Hp.
Qed.

(** C1: over any sequence of [addMessage] calls on any conversation, every
    persisted document has [stats.totalMessages] equal to the number of
    messages, [stats.userMessages] and [stats.aiMessages] equal to the
    numbers of messages of type 'user' and 'ai', these two summing to
    [stats.totalMessages], and [stats.voiceMessages] equal to the number of
    messages of content type 'voice'; and every append is persisted when
    the document passes validation after the last push. *)
Theorem appends_keep_stats_consistent (c : conversation) (ops : list append) :
  Forall statsConsistent (trace c ops)
  /\ (valid (runAppends c ops) = true ->
      List.length (trace c ops) = List.length ops).
Proof.
  split; [|apply trace_length].
  revert c.
  induction ops as [|a ops IH]; intros c; cbn [trace]; [constructor|].
  destruct (callAppend a c) as [[c'|e] kept] eqn:E.
  - constructor; [|apply IH].
    apply (append_saved_consistent a c c' kept E).
  - apply IH.
Qed.

Lemma appends_keep_stats_consistent_sample :
  Forall statsConsistent (trace fresh [hello; hi])
  /\ List.length (trace fresh [hello; hi]) = 2%nat.
Proof.
  destruct (appends_keep_stats_consistent fresh [hello; hi]) as [Hc Hl].
  split; [exact Hc|]. apply Hl. reflexivity.
Defined.

(** *** [lastMessageAt] *)

Lemma runAppend_final (a : append) (c : conversation) :
  valid (pushed a c) = true ->
  finalMessage (messages (runAppend a c)) = Some (stored a)
  /\ lastMessageAt (runAppend a c) = stamp a.
Proof.
  intros Hv. unfold runAppend, after.
  pose proof (append_saved a c Hv) as E. cbv zeta in E. rewrite E.
  cbn [snd messages lastMessageAt].
  rewrite finalMessage_app. split; reflexivity.
Qed.

Lemma trace_unfold (a : append) (c : conversation) (ops : list append) :
  trace c (a :: ops)
  = if valid (pushed a c)
    then runAppend a c :: trace (runAppend a c) ops
    else [].
Proof.
  cbn [trace].
  destruct (valid (pushed a c)) eqn:Hv.
  - rewrite (append_saved_run a c Hv). reflexivity.
  - rewrite (append_rejected a c Hv). apply trace_invalid, Hv.
Qed.

(** The persisted values of [lastMessageAt] are the stamps of the leading
    appends. *)
Lemma trace_lastMessageAt (c : conversation) (ops : list append) :
  exists k, map lastMessageAt (trace c ops) = firstn k (map stamp ops).
Proof.
  revert c.
  induction ops as [|a ops IH]; intros c; [exists 0%nat; reflexivity|].
  rewrite trace_unfold.
  destruct (valid (pushed a c)) eqn:Hv; [|exists 0%nat; reflexivity].
  destruct (IH (runAppend a c)) as [k Hk].
  exists (S k). cbn [map firstn]. rewrite Hk.
  rewrite (proj2 (runAppend_final a c Hv)). reflexivity.
Qed.

Lemma Sorted_firstn (k : nat) (l : list Z) :
  Sorted Z.le l -> Sorted Z.le (firstn k l).
Proof.
  revert k.
  induction l as [|x l IH]; intros k H; [rewrite firstn_nil; constructor|].
  destruct k as [|k]; [constructor|].
  cbn [firstn]. inversion H as [|? ? Hs Hh]; subst.
  constructor; [apply IH, Hs|].
  destruct k as [|k]; [constructor|].
  destruct l as [|y l]; [constructor|].
  cbn [firstn]. inversion Hh; subst. constructor. assumption.
Qed.

Lemma preSave_unmodified (c : conversation) :
  messagesModified c = false -> preSave c = c.
Proof.
  intros H. unfold preSave. rewrite H. reflexivity.
Qed.

Lemma save_after (tSave : Z) (c : conversation) :
  after (save tSave) c
  = if valid c then reset (preSave (timestamps tSave c)) else c.
Proof.
  unfold after. destruct (valid c) eqn:Hv.
  - rewrite save_resolves by exact Hv. reflexivity.
  - rewrite save_rejects by exact Hv. reflexivity.
Qed.

Lemma save_result (tSave : Z) (c : conversation) :
  result (save tSave) c
  = if valid c then Value (after (save tSave) c)
    else Raised (ValidationError "Conversation").
Proof.
  unfold result, after. destruct (valid c) eqn:Hv.
  - rewrite save_resolves by exact Hv. reflexivity.
  - rewrite save_rejects by exact Hv. reflexivity.
Qed.

Lemma preSave_messages (c : conversation) : messages (preSave c) = messages c.
Proof.
  unfold preSave.
  destruct (messagesModified c); [|reflexivity].
  cbn [set_stats messages].
  destruct (0 <? Z.of_nat (List.length (messages c))); [|reflexivity].
  destruct (JS.index _ _); reflexivity.
Qed.

Lemma timestamps_keeps (tSave : Z) (c : conversation) :
  messages (timestamps tSave c) = messages c
  /\ lastMessageAt (timestamps tSave c) = lastMessageAt c
  /\ messagesModified (timestamps tSave c) = messagesModified c
  /\ status (timestamps tSave c) = status c
  /\ userId (timestamps tSave c) = userId c.
Proof.
  unfold timestamps. destruct (_ || _)%bool; repeat split.
Qed.

Lemma save_messages (tSave : Z) (c : conversation) :
  messages (after (save tSave) c) = messages c.
Proof.
  rewrite save_after. destruct (valid c); [|reflexivity].
  cbn [reset messages]. rewrite preSave_messages.
  apply timestamps_keeps.
Qed.

(** Saving a document whose messages are not marked leaves
    [lastMessageAt] and the mark as they are. *)
Lemma save_unmarked (tSave : Z) (c : conversation) :
  messagesModified c = false ->
  lastMessageAt (after (save tSave) c) = lastMessageAt c
  /\ messagesModified (after (save tSave) c) = false.
Proof.
  intros Hm. rewrite save_after.
  destruct (valid c); [|split; [reflexivity|exact Hm]].
  destruct (timestamps_keeps tSave c) as (_ & Hl & Hk & _).
  rewrite preSave_unmodified by (rewrite Hk; exact Hm).
  cbn [reset lastMessageAt messagesModified]. split; [exact Hl|reflexivity].
Qed.

Lemma assign_status_keeps (s : statusKind) (c : conversation) :
  messages (assign_status s c) = messages c
  /\ lastMessageAt (assign_status s c) = lastMessageAt c
  /\ messagesModified (assign_status s c) = messagesModified c
  /\ title (assign_status s c) = title c
  /\ userId (assign_status s c) = userId c
  /\ status (assign_status s c) = s.
Proof.
  unfold assign_status, marked. destruct (_ || _)%bool; repeat split.
Qed.

Lemma assign_isFavorite_keeps (b : bool) (c : conversation) :
  messages (assign_isFavorite b c) = messages c
  /\ lastMessageAt (assign_isFavorite b c) = lastMessageAt c
  /\ messagesModified (assign_isFavorite b c) = messagesModified c
  /\ title (assign_isFavorite b c) = title c
  /\ userId (assign_isFavorite b c) = userId c
  /\ status (assign_isFavorite b c) = status c.
Proof.
  unfold assign_isFavorite, marked. destruct (_ || _)%bool; repeat split.
Qed.

(** An assignment followed by [save()], for an assignment that keeps the
    messages, [lastMessageAt] and the mark on the messages. *)
Lemma assign_then_save_born (f : conversation -> conversation) (tSave born : Z)
    (c : conversation) :
  messages (f c) = messages c ->
  lastMessageAt (f c) = lastMessageAt c ->
  messagesModified (f c) = messagesModified c ->
  (messages c = [] -> lastMessageAt c = born /\ messagesModified c = false) ->
  messages (after (modify f ;; save tSave)%method c) = [] ->
  lastMessageAt (after (modify f ;; save tSave)%method c) = born
  /\ messagesModified (after (modify f ;; save tSave)%method c) = false.
Proof.
  intros Hm Hl Hk IH He.
  change (after (modify f ;; save tSave)%method c)
    with (after (save tSave) (f c)) in *.
  rewrite save_messages, Hm in He.
  destruct (IH He) as [IHl IHm].
  destruct (save_unmarked tSave (f c)) as [El Ek].
  { rewrite Hk. exact IHm. }
  rewrite El, Ek, Hl. split; [exact IHl|reflexivity].
Qed.

(** As long as a reachable conversation has no message, its
    [lastMessageAt] is the reading its default took and its messages are
    not marked. *)
Lemma reachable_born (born : Z) (c : conversation) :
  reachable born c ->
  messages c = [] -> lastMessageAt c = born /\ messagesModified c = false.
Proof.
  induction 1 as [owner ttl model tc tu | c d tp tn ts _ _
                 | c ts _ IH | c ts _ IH | c ts _ IH | c ts _ IH].
  - intros _. split; reflexivity.
  - intros He. exfalso.
    change (messages (runAppend (mkAppend d tp tn ts) c) = []) in He.
    rewrite runAppend_messages in He.
    destruct (messages c); discriminate He.
  - apply assign_then_save_born; try apply assign_status_keeps. exact IH.
  - apply assign_then_save_born; try apply assign_status_keeps. exact IH.
  - apply assign_then_save_born; try apply assign_status_keeps. exact IH.
  - apply (assign_then_save_born
             (fun c => assign_isFavorite (negb (isFavorite c)) c));
      try apply assign_isFavorite_keeps. exact IH.
Qed.

(** C2, as the code has it: after every persisted append [lastMessageAt]
    is the timestamp of the last message; a conversation that was
    constructed and then only went through method calls has, for as long
    as it has no message, [lastMessageAt] equal to the clock reading its
    own schema default took at the construction (a reading of its own,
    taken after the one of [createdAt]); and over a sequence of appends the
    persisted [lastMessageAt] does not decrease when the timestamps the
    appended messages end up with (the one given, else the clock at the
    push) are in non-decreasing order, starting from the current
    [lastMessageAt]. *)
Theorem lastMessageAt_tracks_last_message :
  (forall c ops,
      Forall (fun c' => exists m, finalMessage (messages c') = Some m
                                  /\ lastMessageAt c' = timestamp m)
             (trace c ops))
  /\ (forall born c, reachable born c -> messages c = [] ->
                     lastMessageAt c = born)
  /\ (forall c ops,
        Sorted Z.le (lastMessageAt c :: map stamp ops) ->
        Sorted Z.le (lastMessageAt c :: map lastMessageAt (trace c ops))).
Proof.
  split; [|split].
  - intros c ops. revert c.
    induction ops as [|a ops IH]; intros c; [constructor|].
    rewrite trace_unfold.
    destruct (valid (pushed a c)) eqn:Hv; constructor.
    + destruct (runAppend_final a c Hv) as [Hf Hl].
      exists (stored a). split; [exact Hf|]. rewrite Hl. reflexivity.
    + apply IH.
  - intros born c Hr He. apply (reachable_born born c Hr He).
  - intros c ops H. destruct (trace_lastMessageAt c ops) as [k Hk].
    rewrite Hk.
    apply (Sorted_firstn (S k) (lastMessageAt c :: map stamp ops)), H.
Qed.

Lemma lastMessageAt_tracks_last_message_sample :
  lastMessageAt ticked = 1003
  /\ Sorted Z.le (lastMessageAt fresh :: map lastMessageAt (trace fresh [hello; hi])).
Proof.
  destruct lastMessageAt_tracks_last_message as (_ & Hnew & Hmono).
  split.
  - apply Hnew; [apply reach_new | reflexivity].
  - apply Hmono. cbn.
    repeat (constructor; try (cbv; discriminate)).
Defined.

(** C2 as stated fails twice over.  Appending a message that carries an
    earlier timestamp lowers the persisted [lastMessageAt] (from 12000 to
    500 here); and a conversation constructed while the clock ticks has,
    with no message yet, a [lastMessageAt] (1003) that is not its
    [createdAt] (1001). *)
Lemma lastMessageAt_can_regress_and_differ_from_createdAt :
  (lastMessageAt greeted = 12000
   /\ result (callAppend backdated) greeted
      = Value (runAppend backdated greeted)
   /\ lastMessageAt (runAppend backdated greeted) = 500
   /\ lastMessageAt (runAppend backdated greeted) < lastMessageAt greeted)
  /\ (reachable 1003 ticked
      /\ messages ticked = []
      /\ createdAt ticked = 1001
      /\ lastMessageAt ticked = 1003).
Proof.
  split; repeat split. apply reach_new.
Qed.
(** *** The context window *)

Lemma slice_recent {A : Type} (n : Z) (l : list A) :
  0 < n ->
  JS.slice (- n) l
  = rev (firstn (Z.to_nat (Z.min n (Z.of_nat (List.length l)))) (rev l)).
Proof.
  intros Hn. unfold JS.slice.
  destruct (Z.ltb_spec (- n) 0) as [_|H]; [|lia].
  rewrite firstn_rev, rev_involutive. f_equal. lia.
Qed.

Lemma length_slice_recent {A : Type} (n : Z) (l : list A) :
  0 < n ->
  Z.of_nat (List.length (JS.slice (- n) l)) = Z.min n (Z.of_nat (List.length l)).
Proof.
  intros Hn. unfold JS.slice.
  destruct (Z.ltb_spec (- n) 0) as [_|H]; [|lia].
  rewrite length_skipn. lia.
Qed.

(** For a positive limit the window is the [min limit len] most recent
    messages in arrival order, the receiver is left as it was, and an
    omitted limit is 10. *)
Lemma getContextMessages_recent (c : conversation) (limit : Z) :
  0 < limit ->
  exists window,
    result (getContextMessages (Some limit)) c = Value window
    /\ window = mostRecent (Z.to_nat (Z.min limit (Z.of_nat (List.length (messages c)))))
                 (messages c)
    /\ Z.of_nat (List.length window) = Z.min limit (Z.of_nat (List.length (messages c)))
    /\ after (getContextMessages (Some limit)) c = c
    /\ getContextMessages None c = getContextMessages (Some 10) c.
Proof.
  intros Hl. eexists. split; [reflexivity|].
  repeat split.
  - apply slice_recent, Hl.
  - apply length_slice_recent, Hl.
Qed.

(** C3 at limit 0, on the two-message conversation [greeted]: the code
    hands back both messages, where [min 0 2 = 0] messages are due. *)
Theorem getContextMessages_zero_on_greeted :
  exists window,
    result (getContextMessages (Some 0)) greeted = Value window
    /\ List.length (messages greeted) = 2%nat
    /\ List.length window = 2%nat
    /\ Z.min 0 (Z.of_nat (List.length (messages greeted))) = 0.
Proof.
  eexists. repeat split.
Qed.

(** C10: with limit 0 the whole sequence comes back, for [slice(-0)] is
    [slice(0)]. *)
Theorem getContextMessages_zero_is_everything (c : conversation) :
  result (getContextMessages (Some 0)) c = Value (messages c)
  /\ JS.slice (- 0) (messages c) = JS.slice 0 (messages c).
Proof.
  split; [|reflexivity].
  unfold result, getContextMessages, bind, get, ret. cbn [fst].
  unfold JS.slice. cbn [Z.opp Z.ltb Z.compare].
  replace (Z.min 0 (Z.of_nat (List.length (messages c)))) with 0 by lia.
  reflexivity.
Qed.

(** *** Status transitions *)

Lemma after_modify {S A : Type} (f : S -> S) (m : Method S A) (s : S) :
  after (modify f ;; m)%method s = after m (f s)
  /\ result (modify f ;; m)%method s = result m (f s).
Proof. split; reflexivity. Qed.
(** *** Status transitions *)

Lemma preSave_status (c : conversation) : status (preSave c) = status c.
Proof.
  unfold preSave.
  destruct (messagesModified c); [|reflexivity].
  cbn [set_stats messages].
  destruct (0 <? Z.of_nat (List.length (messages c))); [|reflexivity].
  destruct (JS.index _ _); reflexivity.
Qed.

Lemma save_status (tSave : Z) (c : conversation) :
  status (after (save tSave) c) = status c.
Proof.
  rewrite save_after. destruct (valid c); [|reflexivity].
  cbn [reset status]. rewrite preSave_status. apply timestamps_keeps.
Qed.

Lemma valid_assign_status (s : statusKind) (c : conversation) :
  valid (assign_status s c) = valid c.
Proof.
  unfold valid.
  destruct (assign_status_keeps s c) as (Hm & _ & _ & Ht & _).
  rewrite Hm, Ht. reflexivity.
Qed.

Lemma valid_assign_isFavorite (b : bool) (c : conversation) :
  valid (assign_isFavorite b c) = valid c.
Proof.
  unfold valid.
  destruct (assign_isFavorite_keeps b c) as (Hm & _ & _ & Ht & _).
  rewrite Hm, Ht. reflexivity.
Qed.

(** [archive], [delete] and [restore] are the transitions to their
    target. *)
Lemma transition_instances (tSave : Z) :
  archive tSave = transition archived tSave
  /\ delete tSave = transition deleted tSave
  /\ restore tSave = transition active tSave.
Proof. repeat split. Qed.

Lemma transition_spec (s : statusKind) (tSave : Z) (c : conversation) :
  status (after (transition s tSave) c) = s
  /\ result (transition s tSave) c
     = if valid c then Value (after (transition s tSave) c)
       else Raised (ValidationError "Conversation").
Proof.
  unfold transition.
  rewrite (proj1 (after_modify _ _ _)), (proj2 (after_modify _ _ _)).
  rewrite save_status, save_result, valid_assign_status.
  split; [apply assign_status_keeps|reflexivity].
Qed.

(** C8: whatever the status was, [archive()] leaves 'archived', [delete()]
    leaves 'deleted' and [restore()] leaves 'active', with no look at the
    status held before; each resolves to the document when the document
    passes validation, and is rejected otherwise; restoring after
    archiving, or after deleting, gives 'active'. *)
Theorem status_transitions_unconditional (t t' : Z) (c : conversation) :
  status (after (archive t) c) = archived
  /\ status (after (delete t) c) = deleted
  /\ status (after (restore t) c) = active
  /\ result (archive t) c
     = (if valid c then Value (after (archive t) c)
        else Raised (ValidationError "Conversation"))
  /\ result (delete t) c
     = (if valid c then Value (after (delete t) c)
        else Raised (ValidationError "Conversation"))
  /\ result (restore t) c
     = (if valid c then Value (after (restore t) c)
        else Raised (ValidationError "Conversation"))
  /\ status (after (restore t') (after (archive t) c)) = active
  /\ status (after (restore t') (after (delete t) c)) = active.
Proof.
  change archive with (transition archived).
  change delete with (transition deleted).
  change restore with (transition active).
  repeat split; apply transition_spec.
Qed.

(** *** Titles *)

Lemma length_append (a b : string) :
  String.length (a ++ b) = (String.length a + String.length b)%nat.
Proof.
  induction a as [|ch a IH]; cbn; [reflexivity|]. rewrite IH. reflexivity.
Qed.

Lemma substring_firstChars (n : nat) (s : string) :
  String.substring 0 n s = firstChars n s.
Proof.
  unfold firstChars. revert n.
  induction s as [|ch s IH]; intros [|n]; cbn; try reflexivity.
  rewrite IH. reflexivity.
Qed.

Lemma length_firstChars (n : nat) (s : string) :
  String.length (firstChars n s) = Nat.min n (String.length s).
Proof.
  unfold firstChars. revert n.
  induction s as [|ch s IH]; intros [|n]; cbn; try reflexivity.
  rewrite IH. reflexivity.
Qed.

Lemma firstChars_append (n : nat) (a b : string) :
  String.length a = n -> firstChars n (a ++ b) = a.
Proof.
  unfold firstChars. revert n.
  induction a as [|ch a IH]; intros n H; cbn in H; subst n; cbn.
  - reflexivity.
  - rewrite IH by reflexivity. reflexivity.
Qed.

Lemma JS_substring_head (s : string) (n : nat) :
  (n <= String.length s)%nat -> JS.substring s 0 n = firstChars n s.
Proof.
  intros H. unfold JS.substring.
  rewrite (Nat.min_l n (String.length s)) by exact H.
  rewrite Nat.min_0_l, Nat.max_0_l, Nat.sub_0_r.
  apply substring_firstChars.
Qed.

Lemma find_first_user (pre post : list message) (m : message) :
  Forall (fun x => type x = ai) pre -> type m = user ->
  find isUser (pre ++ m :: post) = Some m.
Proof.
  intros Hpre Hm.
  induction Hpre as [|x pre Hx _ IH]; cbn [app find]; unfold isUser.
  - rewrite Hm. reflexivity.
  - rewrite Hx. cbn [messageType_eqb]. exact IH.
Qed.

Lemma find_no_user (ms : list message) :
  (forall m, In m ms -> type m <> user) -> find isUser ms = None.
Proof.
  intros H.
  induction ms as [|x ms IH]; [reflexivity|].
  cbn [find]. unfold isUser.
  destruct (type x) eqn:E.
  - exfalso. apply (H x); [left; reflexivity|exact E].
  - cbn [messageType_eqb]. apply IH. intros m Hin. apply H. right. exact Hin.
Qed.

(** C5: [generateTitle()] gives 'New Conversation' when no message has
    type 'user'; otherwise, with [m] the first message of type 'user', it
    gives [m]'s content when that has at most 50 characters, and else its
    first 50 characters followed by '...': 53 characters that end in '...'
    and begin with the same 50 characters as the content. *)
Theorem generateTitle_spec (c : conversation) :
  ((forall m, In m (messages c) -> type m <> user) ->
   result generateTitle c = Value "New Conversation"%string)
  /\ (forall pre m post,
        messages c = (pre ++ m :: post)%list ->
        Forall (fun x => type x = ai) pre ->
        type m = user ->
        ((String.length (content m) <= 50)%nat ->
         result generateTitle c = Value (content m))
        /\ ((50 < String.length (content m))%nat ->
            exists t,
              result generateTitle c = Value t
              /\ t = (firstChars 50 (content m) ++ "...")%string
              /\ String.length t = 53%nat
              /\ firstChars 50 t = firstChars 50 (content m)
              /\ endsWith "..." t)).
Proof.
  split.
  - intros H. unfold result, generateTitle, bind, get. cbn [fst].
    rewrite find_no_user by exact H. reflexivity.
  - intros pre m post Hms Hpre Hm.
    assert (Hres : result generateTitle c
                   = Value (if (50 <? String.length (content m))%nat
                            then (JS.substring (content m) 0 50 ++ "...")%string
                            else content m)).
    { unfold result, generateTitle, bind, get. cbn [fst].
      rewrite Hms, (find_first_user pre post m Hpre Hm). reflexivity. }
    split; intros Hlen.
    + rewrite Hres. apply Nat.ltb_ge in Hlen. rewrite Hlen. reflexivity.
    + pose proof Hlen as Hlt. apply Nat.ltb_lt in Hlt.
      rewrite Hres, Hlt, JS_substring_head by lia.
      assert (H50 : String.length (firstChars 50 (content m)) = 50%nat).
      { rewrite length_firstChars. lia. }
      eexists. split; [reflexivity|]. repeat split.
      * rewrite length_append, H50. reflexivity.
      * apply firstChars_append, H50.
      * exists (firstChars 50 (content m)). reflexivity.
Qed.

Lemma generateTitle_spec_sample :
  result generateTitle fresh = Value "New Conversation"%string
  /\ result generateTitle greeted = Value "Hello"%string
  /\ String.length eighty = 80%nat
  /\ exists t,
       result generateTitle longWinded = Value t
       /\ t = (firstChars 50 eighty ++ "...")%string
       /\ String.length t = 53%nat
       /\ firstChars 50 t = firstChars 50 eighty
       /\ endsWith "..." t.
Proof.
  split; [|split; [|split; [reflexivity|]]].
  - apply (generateTitle_spec fresh). intros m [].
  - refine (proj1 (proj2 (generateTitle_spec greeted) [] _ _ eq_refl _ eq_refl) _).
    + constructor.
    + vm_compute. lia.
  - refine (proj2 (proj2 (generateTitle_spec longWinded) [_] _ [] eq_refl _ eq_refl) _).
    + repeat constructor.
    + vm_compute. lia.
Defined.

(** *** Duration *)

Lemma index_head {A : Type} (x : A) (l : list A) : JS.index (x :: l) 0 = Some x.
Proof. reflexivity. Qed.

(** C6: [calculateDuration()] gives 0 with fewer than two messages, and
    otherwise the time from the first message's timestamp to the last
    one's, in seconds (a thousandth of the milliseconds between them); ten
    seconds apart gives 10. *)
Theorem calculateDuration_spec (c : conversation) :
  ((List.length (messages c) < 2)%nat -> result calculateDuration c = Value 0%Q)
  /\ (forall first middle last,
        messages c = first :: (middle ++ [last])%list ->
        exists seconds,
          result calculateDuration c = Value seconds
          /\ (seconds * 1000 == inject_Z (timestamp last - timestamp first))%Q
          /\ (timestamp last - timestamp first = 10 * 1000 -> (seconds == 10)%Q)).
Proof.
  split.
  - intros H. unfold result, calculateDuration, bind, get. cbn [fst].
    destruct (Z.ltb_spec (Z.of_nat (List.length (messages c))) 2) as [_|H2]; [|lia].
    reflexivity.
  - intros f mid l Hms.
    assert (Hres : result calculateDuration c
                   = Value (inject_Z (timestamp l - timestamp f) / 1000)%Q).
    { unfold result, calculateDuration, bind, get. cbn [fst].
      rewrite Hms.
      destruct (Z.ltb_spec (Z.of_nat (List.length (f :: mid ++ [l]))) 2) as [H2|_].
      { cbn [List.length] in H2. rewrite length_app in H2. cbn in H2. lia. }
      rewrite index_head.
      change (f :: mid ++ [l])%list with ((f :: mid) ++ [l])%list.
      rewrite index_final. reflexivity. }
    eexists. split; [exact Hres|]. split.
    + field.
    + intros H. rewrite H. reflexivity.
Qed.

Lemma calculateDuration_spec_sample :
  result calculateDuration fresh = Value 0%Q
  /\ exists seconds,
       result calculateDuration greeted = Value seconds
       /\ (seconds * 1000 == inject_Z (12000 - 2000))%Q
       /\ (seconds == 10)%Q.
Proof.
  split.
  - apply (calculateDuration_spec fresh). cbn. lia.
  - destruct (proj2 (calculateDuration_spec greeted) _ [] _ eq_refl)
      as (seconds & Hr & Hm & Hten).
    exists seconds. split; [exact Hr|]. split; [exact Hm|].
    apply Hten. reflexivity.
Defined.

End ConversationProps.

(** ** Properties of the user aggregate *)

Module UserProps.
Import User UserTerms.

Section Bcrypt.

Local Set Default Proof Using "Type".

Variable bcrypt_hash : string -> string -> string.
Variable bcrypt_compare : string -> string -> bool.

(** *** Credentials *)

Lemma find_absent (mail : string) (store : list user) :
  (forall x, In x store -> email x <> mail) ->
  find (fun x => String.eqb (email x) mail) store = None.
Proof.
  intros H.
  induction store as [|x store IH]; [reflexivity|].
  cbn [find].
  destruct (String.eqb_spec (email x) mail) as [E|_].
  - exfalso. apply (H x); [left; reflexivity|exact E].
  - apply IH. intros y Hy. apply H. right. exact Hy.
Qed.

Lemma find_present (mail : string) (before after_ : list user) (u : user) :
  (forall x, In x before -> email x <> mail) ->
  email u = mail ->
  find (fun x => String.eqb (email x) mail) (before ++ u :: after_) = Some u.
Proof.
  intros H Hu.
  induction before as [|x before IH]; cbn [app find].
  - rewrite Hu, String.eqb_refl. reflexivity.
  - destruct (String.eqb_spec (email x) mail) as [E|_].
    + exfalso. apply (H x); [left; reflexivity|exact E].
    + apply IH. intros y Hy. apply H. right. exact Hy.
Qed.

(** C7: [findByCredentials] fails when no stored user has the email the
    query is cast to (lower case, trimmed), and fails when the stored user
    with that email does not match the password; either way the caller
    gets an [Error] with the message 'Invalid login credentials', so the
    two outcomes are the same. *)
Theorem findByCredentials_failures_alike
    (store before after_ : list user) (u : user)
    (unknownMail knownMail pass wrongPass : string) :
  (forall x, In x store -> email x <> normalizeEmail unknownMail) ->
  store = (before ++ u :: after_)%list ->
  (forall x, In x before -> email x <> normalizeEmail knownMail) ->
  email u = normalizeEmail knownMail ->
  bcrypt_compare wrongPass (password u) = false ->
  result (findByCredentials bcrypt_compare unknownMail pass) store
    = Raised (Error "Invalid login credentials")
  /\ result (findByCredentials bcrypt_compare knownMail wrongPass) store
    = Raised (Error "Invalid login credentials")
  /\ result (findByCredentials bcrypt_compare unknownMail pass) store
    = result (findByCredentials bcrypt_compare knownMail wrongPass) store.
Proof.
  intros Hno Hstore Hbefore Hmail Hwrong.
  assert (H1 : result (findByCredentials bcrypt_compare unknownMail pass) store
               = Raised (Error "Invalid login credentials")).
  { unfold result, findByCredentials, findOne, bind, get, ret, throw.
    cbn [fst]. rewrite find_absent by exact Hno. reflexivity. }
  assert (H2 : result (findByCredentials bcrypt_compare knownMail wrongPass) store
               = Raised (Error "Invalid login credentials")).
  { unfold result, findByCredentials, findOne, comparePassword, bind, get, ret, throw.
    cbn [fst]. rewrite Hstore, (find_present _ _ _ _ Hbefore Hmail).
    unfold result. cbn [fst]. rewrite Hwrong. reflexivity. }
  split; [exact H1|]. split; [exact H2|]. rewrite H1, H2. reflexivity.
Qed.

(** *** Saving *)

Lemma user_save_resolves (salt : string) (tSave : Z) (u : user) :
  valid u = true ->
  save bcrypt_hash salt tSave u
  = (Value (reset (preSave bcrypt_hash salt (timestamps tSave u))),
     reset (preSave bcrypt_hash salt (timestamps tSave u))).
Proof.
  intros H. unfold save, bind, get, modify. rewrite H. reflexivity.
Qed.

Lemma user_save_rejects (salt : string) (tSave : Z) (u : user) :
  valid u = false ->
  save bcrypt_hash salt tSave u = (Raised (ValidationError "User"), u).
Proof.
  intros H. unfold save, bind, get, throw. rewrite H. reflexivity.
Qed.

Lemma user_save_after (salt : string) (tSave : Z) (u : user) :
  after (save bcrypt_hash salt tSave) u
  = if valid u then reset (preSave bcrypt_hash salt (timestamps tSave u))
    else u.
Proof.
  unfold after. destruct (valid u) eqn:Hv.
  - rewrite user_save_resolves by exact Hv. reflexivity.
  - rewrite user_save_rejects by exact Hv. reflexivity.
Qed.

Lemma user_save_result (salt : string) (tSave : Z) (u : user) :
  result (save bcrypt_hash salt tSave) u
  = if valid u then Value (after (save bcrypt_hash salt tSave) u)
    else Raised (ValidationError "User").
Proof.
  unfold result, after. destruct (valid u) eqn:Hv.
  - rewrite user_save_resolves by exact Hv. reflexivity.
  - rewrite user_save_rejects by exact Hv. reflexivity.
Qed.

(** What a save does to the document, path by path. *)
Lemma user_save_paths (salt : string) (tSave : Z) (u : user) :
  let u' := after (save bcrypt_hash salt tSave) u in
  username u' = username u /\ email u' = email u /\ avatar u' = avatar u
  /\ preferences u' = preferences u /\ stats u' = stats u
  /\ isActive u' = isActive u /\ lastActive u' = lastActive u
  /\ createdAt u' = createdAt u
  /\ password u'
     = (if (valid u && passwordModified u)%bool
        then bcrypt_hash (password u) salt else password u)
  /\ updatedAt u'
     = (if valid u
        then if isNew u then createdAt u
             else if isModified u then tSave else updatedAt u
        else updatedAt u).
Proof.
  cbv zeta. rewrite user_save_after.
  destruct (valid u); [|repeat split].
  unfold timestamps, preSave, isModified.
  destruct u as [un em pw av pr st ia la ca ua nw pm om].
  cbn [isNew passwordModified othersModified createdAt updatedAt].
  destruct nw, pm, om; cbn; repeat split.
Qed.

Lemma user_save_stats (salt : string) (tSave : Z) (u : user) :
  stats (after (save bcrypt_hash salt tSave) u) = stats u.
Proof. apply user_save_paths. Qed.

(** *** Counters *)

Lemma updateStats_unfold (type : string) (increment : option Z) (salt : string)
    (tSave : Z) (u : user) :
  after (updateStats bcrypt_hash type increment salt tSave) u
  = after (save bcrypt_hash salt tSave) (switchType type (delta increment) u)
  /\ result (updateStats bcrypt_hash type increment salt tSave) u
    = result (save bcrypt_hash salt tSave) (switchType type (delta increment) u).
Proof. split; reflexivity. Qed.

Lemma marked_paths (changed : bool) (u : user) :
  let u' := marked changed u in
  username u' = username u /\ email u' = email u /\ password u' = password u
  /\ avatar u' = avatar u /\ preferences u' = preferences u
  /\ stats u' = stats u /\ isActive u' = isActive u
  /\ lastActive u' = lastActive u /\ createdAt u' = createdAt u
  /\ updatedAt u' = updatedAt u /\ isNew u' = isNew u
  /\ passwordModified u' = passwordModified u
  /\ othersModified u' = (othersModified u || isNew u || changed)%bool.
Proof.
  unfold marked.
  destruct (isNew u) eqn:Hn, changed, (othersModified u) eqn:Ho;
    cbn; rewrite ?Hn, ?Ho; repeat split.
Qed.

(** What the [switch] does, path by path. *)
Lemma switchType_paths (type : string) (d : Z) (u : user) :
  let u' := switchType type d u in
  let st := stats u in
  username u' = username u /\ email u' = email u /\ password u' = password u
  /\ avatar u' = avatar u /\ preferences u' = preferences u
  /\ isActive u' = isActive u /\ lastActive u' = lastActive u
  /\ createdAt u' = createdAt u /\ updatedAt u' = updatedAt u
  /\ isNew u' = isNew u /\ passwordModified u' = passwordModified u
  /\ (isNew u = false ->
      isModified u' = (isModified u || (counted type && negb (d =? 0)))%bool)
  /\ stats u'
     = (if (type =? "conversation")%string then
          mkStats (conversations st + d) (messages st) (voiceInteractions st)
            (totalUsageTime st)
        else if (type =? "message")%string then
          mkStats (conversations st) (messages st + d) (voiceInteractions st)
            (totalUsageTime st)
        else if (type =? "voice")%string then
          mkStats (conversations st) (messages st) (voiceInteractions st + d)
            (totalUsageTime st)
        else if (type =? "usage")%string then
          mkStats (conversations st) (messages st) (voiceInteractions st)
            (totalUsageTime st + d)
        else st).
Proof.
  cbv zeta. unfold switchType, counted, kinds. cbn [existsb].
  assert (Hm : forall st', 
    let u' := marked (negb (d =? 0)) (set_stats st' u) in
    username u' = username u /\ email u' = email u /\ password u' = password u
    /\ avatar u' = avatar u /\ preferences u' = preferences u
    /\ isActive u' = isActive u /\ lastActive u' = lastActive u
    /\ createdAt u' = createdAt u /\ updatedAt u' = updatedAt u
    /\ isNew u' = isNew u /\ passwordModified u' = passwordModified u
    /\ (isNew u = false ->
        isModified u' = (isModified u || negb (d =? 0))%bool)
    /\ stats u' = st').
  { intros st'. cbv zeta.
    pose proof (marked_paths (negb (d =? 0)) (set_stats st' u)) as H.
    cbv zeta in H. unfold isModified.
    destruct H as (H1&H2&H3&H4&H5&H6&H7&H8&H9&H10&H11&H12&H13).
    rewrite H1, H2, H3, H4, H5, H6, H7, H8, H9, H10, H11, H12, H13.
    cbn [username email password avatar preferences stats isActive lastActive
         createdAt updatedAt isNew passwordModified othersModified set_stats].
    repeat split. intros Hn. rewrite Hn, orb_false_r, orb_assoc. reflexivity. }
  destruct (type =? "conversation")%string;
    [cbn [orb andb]; apply Hm|].
  destruct (type =? "message")%string; [cbn [orb andb]; apply Hm|].
  destruct (type =? "voice")%string; [cbn [orb andb]; apply Hm|].
  destruct (type =? "usage")%string; [cbn [orb andb]; apply Hm|].
  cbn [orb andb]. repeat split. intros _. rewrite orb_false_r. reflexivity.
Qed.


(** What [updateStats] does to the counters, kind by kind. *)
Lemma updateStats_stats (type : string) (increment : option Z) (salt : string)
    (tSave : Z) (u : user) :
  let st := stats u in
  let d := delta increment in
  stats (after (updateStats bcrypt_hash type increment salt tSave) u)
  = if (type =? "conversation")%string then
      mkStats (conversations st + d) (messages st) (voiceInteractions st)
        (totalUsageTime st)
    else if (type =? "message")%string then
      mkStats (conversations st) (messages st + d) (voiceInteractions st)
        (totalUsageTime st)
    else if (type =? "voice")%string then
      mkStats (conversations st) (messages st) (voiceInteractions st + d)
        (totalUsageTime st)
    else if (type =? "usage")%string then
      mkStats (conversations st) (messages st) (voiceInteractions st)
        (totalUsageTime st + d)
    else st.
Proof.
  intros st d.
  rewrite (proj1 (updateStats_unfold type increment salt tSave u)),
    user_save_stats.
  apply switchType_paths.
Qed.



(** *** Monotone counters *)

Lemma statsLe_refl (st : userStats) : statsLe st st.
Proof. unfold statsLe. lia. Qed.

Lemma statsLe_trans (a b c : userStats) :
  statsLe a b -> statsLe b c -> statsLe a c.
Proof. unfold statsLe. lia. Qed.

Lemma perform_grows (u : user) (o : operation) :
  growing o -> statsLe (stats u) (stats (perform bcrypt_hash bcrypt_compare u o)).
Proof.
  destruct o as [candidate | | now salt tSave | type increment salt tSave
                | salt tSave];
    intros Hg; cbn [perform].
  - apply statsLe_refl.
  - apply statsLe_refl.
  - unfold updateLastActive.
    change (after (modify ?f ;; save bcrypt_hash salt tSave)%method u)
      with (after (save bcrypt_hash salt tSave) (f u)).
    rewrite user_save_stats.
    pose proof (marked_paths (negb (lastActive u =? now)) (set_lastActive now u))
      as H. cbv zeta in H. unfold assign_lastActive.
    destruct H as (_&_&_&_&_&H6&_). rewrite H6. apply statsLe_refl.
  - rewrite updateStats_stats.
    assert (Hd : 0 <= delta increment).
    { destruct increment as [n|]; cbn in Hg |- *; lia. }
    destruct (type =? "conversation")%string;
      [unfold statsLe; cbn; lia|].
    destruct (type =? "message")%string; [unfold statsLe; cbn; lia|].
    destruct (type =? "voice")%string; [unfold statsLe; cbn; lia|].
    destruct (type =? "usage")%string; [unfold statsLe; cbn; lia|].
    apply statsLe_refl.
  - rewrite user_save_stats. apply statsLe_refl.
Qed.

(** C4, as the code has it: over any sequence of calls to the user
    methods in which every [updateStats] increment is non-negative (the
    omitted increment is 1), none of the four counters ever gets
    smaller. *)
Theorem counters_never_decrease (ops : list operation) (u : user) :
  Forall growing ops ->
  statsLe (stats u) (stats (fold_left (perform bcrypt_hash bcrypt_compare) ops u)).
Proof.
  intros H. revert u.
  induction H as [|o ops Ho _ IH]; intros u; cbn [fold_left].
  - apply statsLe_refl.
  - eapply statsLe_trans; [apply perform_grows, Ho|apply IH].
Qed.

End Bcrypt.

(** *** Sample runs *)

Local Open Scope string_scope.

Lemma findByCredentials_failures_alike_sample :
  result (findByCredentials toyCompare " Carol@Example.com" "anything") directory
    = Raised (Error "Invalid login credentials")
  /\ result (findByCredentials toyCompare " Alice@Example.COM " "rabbit-hole")
       directory
    = Raised (Error "Invalid login credentials")
  /\ result (findByCredentials toyCompare " Carol@Example.com" "anything") directory
    = result (findByCredentials toyCompare " Alice@Example.COM " "rabbit-hole")
        directory.
Proof.
  apply (findByCredentials_failures_alike toyCompare directory [] [bob] alice).
  - intros x [E|[E|[]]]; subst x; discriminate.
  - reflexivity.
  - intros x [].
  - reflexivity.
  - reflexivity.
Defined.



Lemma counters_never_decrease_sample :
  statsLe (stats alice)
    (stats (fold_left (perform toyHash toyCompare)
              [callUpdateStats "message" (Some 2) "NaCl" 9000;
               callUpdateLastActive 5000 "NaCl" 9001;
               callUpdateStats "voice" None "NaCl" 9002;
               callUpdateStats "usage" (Some 0) "NaCl" 9003;
               callGetPublicProfile]
              alice)).
Proof.
  apply (counters_never_decrease toyHash toyCompare).
  repeat constructor; cbn; lia.
Defined.

(** C4 as stated fails: a negative increment lowers the counter. *)
Lemma negative_increment_lowers_counter :
  messages (stats alice) = 40
  /\ messages (stats (after (updateStats toyHash "message" (Some (-1)) "NaCl" 9000)
                        alice))
     = 39
  /\ messages (stats (after (updateStats toyHash "message" (Some (-1)) "NaCl" 9000)
                        alice))
     < messages (stats alice).
Proof.
  repeat split.
Qed.

End UserProps.

(** ** More on the conversation aggregate *)

Module ConversationMore.
Import Conversation ConversationTerms MoreTerms ConversationProps.

(** *** Appending *)

Lemma runAppends_snoc (c : conversation) (ops : list append) (a : append) :
  runAppends c (ops ++ [a]) = runAppend a (runAppends c ops).
Proof.
  unfold runAppends. rewrite fold_left_app. reflexivity.
Qed.

(** X1: appending only ever appends.  After any sequence of [addMessage]
    calls the messages are the ones there were, in their order, followed
    by the stored form of each appended one, in call order. *)
Theorem appends_extend_messages (c : conversation) (ops : list append) :
  messages (runAppends c ops) = (messages c ++ map stored ops)%list
  /\ List.length (messages (runAppends c ops))
     = (List.length (messages c) + List.length ops)%nat.
Proof.
  assert (H : messages (runAppends c ops) = (messages c ++ map stored ops)%list).
  { revert c. unfold runAppends.
    induction ops as [|a ops IH]; intros c; cbn [fold_left map].
    - rewrite app_nil_r. reflexivity.
    - rewrite IH, runAppend_messages, <- app_assoc. reflexivity. }
  split; [exact H|].
  rewrite H, length_app, length_map. reflexivity.
Qed.

Lemma pushed_lastMessageAt (a : append) (c : conversation) :
  lastMessageAt (pushed a c) = setAt a /\ stats (pushed a c) = stats c.
Proof.
  unfold pushed, assign_lastMessageAt, marked, pushMessage.
  destruct (_ || _)%bool; split; reflexivity.
Qed.

(** X2: the [new Date()] that [addMessage] assigns to [lastMessageAt]
    survives only a rejected save.  When the document and the message pass
    validation, document and outcome are the same whatever that clock
    reading was; when they do not, the call is rejected and [lastMessageAt]
    is left at that reading, with no message timestamp behind it. *)
Theorem addMessage_ignores_its_own_clock
    (d : messageData) (tPush tNow tNow' tSave : Z) (c : conversation) :
  ((valid c && validMessage (castMessage tPush d))%bool = true ->
   addMessage d tPush tNow tSave c = addMessage d tPush tNow' tSave c)
  /\ ((valid c && validMessage (castMessage tPush d))%bool = false ->
      result (addMessage d tPush tNow tSave) c
      = Raised (ValidationError "Conversation")
      /\ lastMessageAt (after (addMessage d tPush tNow tSave) c) = tNow).
Proof.
  split; intros Hv.
  - pose proof (append_saved (mkAppend d tPush tNow tSave) c) as E.
    pose proof (append_saved (mkAppend d tPush tNow' tSave) c) as E'.
    rewrite valid_pushed in E, E'. cbv zeta in E, E'.
    unfold callAppend, stored in E, E'.
    cbn [appended pushedAt setAt savedAt] in E, E'.
    rewrite (E Hv), (E' Hv). reflexivity.
  - pose proof (append_rejected (mkAppend d tPush tNow tSave) c) as E.
    rewrite valid_pushed in E. unfold callAppend, stored in E.
    cbn [appended pushedAt setAt savedAt] in E.
    unfold result, after. rewrite (E Hv). cbn [fst snd].
    split; [reflexivity|].
    apply (pushed_lastMessageAt (mkAppend d tPush tNow tSave) c).
Qed.

Lemma addMessage_ignores_its_own_clock_sample :
  addMessage (says ai "Hi!" None) 12000 12001 12002 (runAppend hello fresh)
  = addMessage (says ai "Hi!" None) 12000 99999 12002 (runAppend hello fresh)
  /\ (result (addMessage (says user "   " None) 14000 14001 14002) greeted
      = Raised (ValidationError "Conversation")
      /\ lastMessageAt (after (addMessage (says user "   " None) 14000 14001 14002)
                          greeted)
         = 14001).
Proof.
  split.
  - apply (addMessage_ignores_its_own_clock (says ai "Hi!" None)
             12000 12001 99999 12002 (runAppend hello fresh)).
    reflexivity.
  - apply (addMessage_ignores_its_own_clock (says user "   " None)
             14000 14001 14001 14002 greeted).
    reflexivity.
Defined.

Lemma countType_snoc (t : messageType) (ms : list message) (m : message) :
  countType t (ms ++ [m]) = countType t ms + oneIf (messageType_eqb (type m) t).
Proof.
  induction ms as [|x ms IH]; cbn [app countType].
  - unfold oneIf. lia.
  - rewrite IH. lia.
Qed.

Lemma countContent_snoc (k : contentKind) (ms : list message) (m : message) :
  countContent k (ms ++ [m])
  = countContent k ms + oneIf (contentKind_eqb (contentType m) k).
Proof.
  induction ms as [|x ms IH]; cbn [app countContent].
  - unfold oneIf. lia.
  - rewrite IH. lia.
Qed.

(** X3: on a conversation whose counters agree with its messages, an
    append that is saved raises [totalMessages] by one, raises
    [userMessages] or [aiMessages] (the one of the message's type) by one
    and leaves the other, and raises [voiceMessages] by one exactly when
    the content type is 'voice'; an append that is rejected leaves the
    counters as they were, one message short of the messages in memory. *)
Theorem append_counts_one (a : append) (c : conversation) :
  statsConsistent c ->
  let m := stored a in
  let st := stats c in
  let st' := stats (runAppend a c) in
  ((valid c && validMessage m)%bool = true ->
   totalMessages st' = totalMessages st + 1
   /\ userMessages st' = userMessages st + oneIf (messageType_eqb (type m) user)
   /\ aiMessages st' = aiMessages st + oneIf (messageType_eqb (type m) ai)
   /\ voiceMessages st'
      = voiceMessages st + oneIf (contentKind_eqb (contentType m) voice))
  /\ ((valid c && validMessage m)%bool = false ->
      st' = st
      /\ Z.of_nat (List.length (messages (runAppend a c)))
         = totalMessages st' + 1).
Proof.
  intros (Ht & Hu & Ha & _ & Hv) m st st'.
  split; intros Hval; unfold m in Hval; rewrite <- valid_pushed in Hval.
  - pose proof (append_saved_run a c Hval) as E.
    destruct (append_saved_consistent a c _ _ E) as (Ht' & Hu' & Ha' & _ & Hv').
    fold st' in Ht', Hu', Ha', Hv'. fold st in Ht, Hu, Ha, Hv.
    rewrite runAppend_messages in Ht', Hu', Ha', Hv'.
    fold m in Ht', Hu', Ha', Hv'.
    rewrite Ht', Hu', Ha', Hv', Ht, Hu, Ha, Hv.
    rewrite !countType_snoc, countContent_snoc, length_app. cbn [List.length].
    repeat split; lia.
  - assert (E : st' = st).
    { unfold st', runAppend, after. rewrite (append_rejected a c Hval).
      apply pushed_lastMessageAt. }
    split; [exact E|].
    rewrite E, runAppend_messages, length_app. fold st in Ht.
    rewrite Ht. cbn [List.length]. lia.
Qed.

Lemma append_counts_one_sample :
  (totalMessages (stats greeted) = 1 + 1
   /\ userMessages (stats greeted) = 1 + 0
   /\ aiMessages (stats greeted) = 0 + 1
   /\ voiceMessages (stats greeted) = 0 + 0)
  /\ (stats (runAppend blank greeted) = stats greeted
      /\ Z.of_nat (List.length (messages (runAppend blank greeted))) = 2 + 1).
Proof.
  split.
  - apply (append_counts_one hi (runAppend hello fresh)); [|reflexivity].
    repeat split.
  - apply (append_counts_one blank greeted); [|reflexivity].
    repeat split.
Defined.

(** X4: an append leaves owner, title, summary, tags, model, settings,
    status, favourite flag and creation time as they were: a message
    appended to an archived or deleted conversation is stored and the
    conversation stays archived or deleted.  The call resolves to the
    document when the document and the message pass validation, and is
    rejected otherwise. *)
Theorem append_keeps_header (a : append) (c : conversation) :
  sameHeader c (runAppend a c)
  /\ result (addMessage (appended a) (pushedAt a) (setAt a) (savedAt a)) c
     = if (valid c && validMessage (stored a))%bool
       then Value (runAppend a c)
       else Raised (ValidationError "Conversation").
Proof.
  change (addMessage (appended a) (pushedAt a) (setAt a) (savedAt a))
    with (callAppend a).
  rewrite <- valid_pushed. unfold result, runAppend, after, sameHeader.
  destruct (valid (pushed a c)) eqn:Hv.
  - pose proof (append_saved a c Hv) as E. cbv zeta in E. rewrite E.
    cbn. repeat split.
  - rewrite (append_rejected a c Hv). cbn [fst snd].
    unfold pushed, assign_lastMessageAt, marked, pushMessage.
    destruct (_ || _)%bool; repeat split.
Qed.

Lemma save_untouched (tSave : Z) (c : conversation) :
  duration (stats (after (save tSave) c)) = duration (stats c)
  /\ tokensUsed (stats (after (save tSave) c)) = tokensUsed (stats c).
Proof.
  rewrite save_after. destruct (valid c); [|split; reflexivity].
  unfold preSave, timestamps.
  destruct (_ || _)%bool; cbn [messagesModified set_updatedAt];
    destruct (messagesModified c); cbn [reset stats set_stats messages];
    try (split; reflexivity).
  all: destruct (0 <? _); [destruct (JS.index _ _)|]; split; reflexivity.
Qed.

Lemma assign_then_save_untouched (f : conversation -> conversation)
    (tSave : Z) (c : conversation) :
  stats (f c) = stats c ->
  duration (stats (after (modify f ;; save tSave)%method c)) = duration (stats c)
  /\ tokensUsed (stats (after (modify f ;; save tSave)%method c))
     = tokensUsed (stats c).
Proof.
  intros H.
  change (after (modify f ;; save tSave)%method c)
    with (after (save tSave) (f c)).
  destruct (save_untouched tSave (f c)) as [Hd Ht].
  rewrite Hd, Ht, H. split; reflexivity.
Qed.

Lemma assign_status_stats (s : statusKind) (c : conversation) :
  stats (assign_status s c) = stats c.
Proof. unfold assign_status, marked. destruct (_ || _)%bool; reflexivity. Qed.

Lemma assign_isFavorite_stats (b : bool) (c : conversation) :
  stats (assign_isFavorite b c) = stats c.
Proof. unfold assign_isFavorite, marked. destruct (_ || _)%bool; reflexivity. Qed.

(** X5: no method ever writes [stats.duration] or [stats.tokensUsed]: on a
    conversation that was constructed and then only went through method
    calls both are still 0, whatever [calculateDuration()] answers. *)
Theorem stored_duration_stays_zero (born : Z) (c : conversation) :
  reachable born c -> duration (stats c) = 0%Q /\ tokensUsed (stats c) = 0.
Proof.
  induction 1 as [owner ttl model tc tu | c d tp tn ts _ IH
                 | c ts _ IH | c ts _ IH | c ts _ IH | c ts _ IH].
  - split; reflexivity.
  - change (after (addMessage d tp tn ts) c)
      with (after (save ts) (pushed (mkAppend d tp tn ts) c)).
    destruct (save_untouched ts (pushed (mkAppend d tp tn ts) c)) as [Hd Ht].
    rewrite Hd, Ht, (proj2 (pushed_lastMessageAt _ c)). exact IH.
  - destruct (assign_then_save_untouched (assign_status archived) ts c
                (assign_status_stats _ c)) as [Hd Ht].
    unfold archive. rewrite Hd, Ht. exact IH.
  - destruct (assign_then_save_untouched (assign_status deleted) ts c
                (assign_status_stats _ c)) as [Hd Ht].
    unfold delete. rewrite Hd, Ht. exact IH.
  - destruct (assign_then_save_untouched (assign_status active) ts c
                (assign_status_stats _ c)) as [Hd Ht].
    unfold restore. rewrite Hd, Ht. exact IH.
  - destruct (assign_then_save_untouched
                (fun c => assign_isFavorite (negb (isFavorite c)) c) ts c
                (assign_isFavorite_stats _ c)) as [Hd Ht].
    unfold toggleFavorite. rewrite Hd, Ht. exact IH.
Qed.

Lemma stored_duration_stays_zero_sample :
  (duration (stats greeted) = 0%Q /\ tokensUsed (stats greeted) = 0)
  /\ result calculateDuration greeted = Value (inject_Z 10000 / 1000)%Q.
Proof.
  split; [|reflexivity].
  apply (stored_duration_stays_zero 1000).
  apply reach_addMessage, reach_addMessage, reach_new.
Defined.

(** *** Saving, favourites and status *)






Lemma transition_of_saved (s : statusKind) (tSave : Z) (c : conversation) :
  saved c -> valid c = true ->
  after (transition s tSave) c
  = if statusKind_eqb (status c) s then c
    else set_updatedAt tSave (set_status s c).
Proof.
  intros (Hn & Hm & Ho) Hv.
  change (after (transition s tSave) c)
    with (after (save tSave) (assign_status s c)).
  rewrite save_after, valid_assign_status, Hv.
  destruct c as [o ti ms su tg mo se st sk fv tc tu tl nw mm om].
  cbn in Hn, Hm, Ho. subst nw mm om.
  unfold assign_status, marked. cbn [status isNew orb set_status].
  destruct (statusKind_eqb sk s) eqn:E; cbn [negb].
  - destruct sk, s; try discriminate E; reflexivity.
  - reflexivity.
Qed.

Lemma toggle_of_saved (tSave : Z) (c : conversation) :
  saved c -> valid c = true ->
  after (toggleFavorite tSave) c
  = set_updatedAt tSave (set_isFavorite (negb (isFavorite c)) c).
Proof.
  intros (Hn & Hm & Ho) Hv.
  change (after (toggleFavorite tSave) c)
    with (after (save tSave) (assign_isFavorite (negb (isFavorite c)) c)).
  rewrite save_after, valid_assign_isFavorite, Hv.
  destruct c as [o ti ms su tg mo se st sk fv tc tu tl nw mm om].
  cbn in Hn, Hm, Ho. subst nw mm om.
  unfold assign_isFavorite, marked. cbn [isFavorite isNew orb set_isFavorite].
  destruct fv; reflexivity.
Qed.

Lemma save_isFavorite (tSave : Z) (x : conversation) :
  isFavorite (after (save tSave) x) = isFavorite x.
Proof.
  rewrite save_after. destruct (valid x); [|reflexivity].
  unfold preSave, timestamps.
  destruct (_ || _)%bool; cbn [messagesModified set_updatedAt];
    destruct (messagesModified x);
    cbn [reset isFavorite set_stats set_updatedAt messages]; try reflexivity.
  all: destruct (0 <? _); [destruct (JS.index _ _)|]; reflexivity.
Qed.

Lemma toggle_isFavorite (tSave : Z) (c : conversation) :
  isFavorite (after (toggleFavorite tSave) c) = negb (isFavorite c).
Proof.
  change (after (toggleFavorite tSave) c)
    with (after (save tSave) (assign_isFavorite (negb (isFavorite c)) c)).
  rewrite save_isFavorite.
  unfold assign_isFavorite, marked. destruct (_ || _)%bool; reflexivity.
Qed.

(** X7: [toggleFavorite()] flips the flag; on a stored document that
    passes validation, toggling twice gives the document back, but for
    [updatedAt], which is the clock at the second save. *)
Theorem toggleFavorite_twice (t1 t2 : Z) (c : conversation) :
  isFavorite (after (toggleFavorite t1) c) = negb (isFavorite c)
  /\ (saved c -> valid c = true ->
      after (toggleFavorite t2) (after (toggleFavorite t1) c)
      = set_updatedAt t2 c).
Proof.
  split; [apply toggle_isFavorite|].
  intros Hs Hv.
  rewrite (toggle_of_saved t1 c Hs Hv).
  rewrite toggle_of_saved.
  - destruct c. cbn. rewrite negb_involutive. reflexivity.
  - destruct Hs as (Hn & Hm & Ho). repeat split; assumption.
  - exact Hv.
Qed.

Lemma toggleFavorite_twice_sample :
  isFavorite (after (toggleFavorite 20000) greeted) = true
  /\ after (toggleFavorite 20001) (after (toggleFavorite 20000) greeted)
     = set_updatedAt 20001 greeted.
Proof.
  split.
  - apply (toggleFavorite_twice 20000 20001 greeted).
  - apply (toggleFavorite_twice 20000 20001 greeted); repeat split.
Defined.

(** X8: of two status transitions in a row on a stored document that
    passes validation, only the second counts for the status: the outcome
    is the one of the second transition alone, but for [updatedAt], which
    each transition that changes the status sets to its clock; it is the
    very same document when the two targets differ and the second changes
    the status held at first. *)
Theorem last_transition_wins (s s' : statusKind) (t1 t2 : Z) (c : conversation) :
  saved c -> valid c = true ->
  let twice := after (transition s' t2) (after (transition s t1) c) in
  let once := after (transition s' t2) c in
  status twice = s'
  /\ twice = set_updatedAt (updatedAt twice) once
  /\ (s <> s' -> status c <> s' -> twice = once).
Proof.
  intros Hs Hv twice once. unfold twice, once.
  rewrite (transition_of_saved s t1 c Hs Hv).
  rewrite (transition_of_saved s' t2 c Hs Hv).
  assert (Hs1 : saved (if statusKind_eqb (status c) s then c
                       else set_updatedAt t1 (set_status s c))).
  { destruct Hs as (Hn & Hm & Ho).
    destruct (statusKind_eqb (status c) s); repeat split; assumption. }
  assert (Hv1 : valid (if statusKind_eqb (status c) s then c
                       else set_updatedAt t1 (set_status s c)) = true).
  { destruct (statusKind_eqb (status c) s); exact Hv. }
  rewrite (transition_of_saved s' t2 _ Hs1 Hv1).
  destruct c as [o ti ms su tg mo se st sk fv tc tu tl nw mm om].
  cbn [status].
  split; [|split].
  - destruct sk, s, s'; reflexivity.
  - destruct sk, s, s'; reflexivity.
  - intros Hd Hk. cbn [status] in Hk.
    destruct sk, s, s'; try reflexivity; congruence.
Qed.

Lemma last_transition_wins_sample :
  status (after (restore 20001) (after (archive 20000) greeted)) = active
  /\ after (restore 20001) (after (archive 20000) greeted)
     = set_updatedAt 20001 (after (restore 20001) greeted)
  /\ after (delete 20001) (after (archive 20000) greeted)
     = after (delete 20001) greeted.
Proof.
  destruct (last_transition_wins archived active 20000 20001 greeted)
    as (H1 & H2 & _); [repeat split|reflexivity|].
  destruct (last_transition_wins archived deleted 20000 20001 greeted)
    as (_ & _ & H3); [repeat split|reflexivity|].
  split; [exact H1|]. split; [exact H2|].
  apply H3; discriminate.
Defined.

(** X9: deleting and archiving are soft.  They keep every message; on a
    stored, active document that passes validation they change the status
    and [updatedAt] and nothing else; and restoring it after deleting or
    archiving it gives the document back, but for [updatedAt], which is
    the clock at the restore. *)
Theorem soft_delete_round_trip (t1 t2 : Z) (c : conversation) :
  messages (after (delete t1) c) = messages c
  /\ messages (after (archive t1) c) = messages c
  /\ (saved c -> valid c = true -> status c = active ->
      after (delete t1) c = set_updatedAt t1 (set_status deleted c)
      /\ after (archive t1) c = set_updatedAt t1 (set_status archived c)
      /\ after (restore t2) (after (delete t1) c) = set_updatedAt t2 c
      /\ after (restore t2) (after (archive t1) c) = set_updatedAt t2 c).
Proof.
  assert (Hm : forall s, messages (after (transition s t1) c) = messages c).
  { intros s.
    change (after (transition s t1) c)
      with (after (save t1) (assign_status s c)).
    rewrite save_messages. apply assign_status_keeps. }
  split; [apply (Hm deleted)|]. split; [apply (Hm archived)|].
  intros Hs Hv Ha.
  change delete with (transition deleted).
  change archive with (transition archived).
  change restore with (transition active).
  assert (Hs1 : forall s, saved (set_updatedAt t1 (set_status s c))).
  { intros s. destruct Hs as (Hn & Hm' & Ho). repeat split; assumption. }
  rewrite !(transition_of_saved _ t1 c Hs Hv), Ha. cbn [statusKind_eqb].
  rewrite !(transition_of_saved _ t2 _ (Hs1 _) Hv).
  destruct c as [o ti ms su tg mo se st sk fv tc tu tl nw mm om].
  cbn in Ha. subst sk. repeat split.
Qed.

Lemma soft_delete_round_trip_sample :
  after (delete 20000) greeted = set_updatedAt 20000 (set_status deleted greeted)
  /\ after (restore 20001) (after (delete 20000) greeted)
     = set_updatedAt 20001 greeted
  /\ after (restore 20001) (after (archive 20000) greeted)
     = set_updatedAt 20001 greeted.
Proof.
  destruct (soft_delete_round_trip 20000 20001 greeted) as (_ & _ & H).
  destruct H as (H1 & _ & H3 & H4); [repeat split|reflexivity|reflexivity|].
  split; [exact H1|]. split; [exact H3|exact H4].
Defined.

(** *** Reading *)

Lemma context_unfold (limit : option Z) (c : conversation) :
  result (getContextMessages limit) c
  = Value (JS.slice (- match limit with Some n => n | None => 10 end) (messages c))
  /\ after (getContextMessages limit) c = c.
Proof. split; reflexivity. Qed.

(** X10: for every limit, zero and negative ones included, the context
    window is a suffix of the messages and the conversation is left as it
    was; a positive limit keeps the [min limit len] most recent, any other
    limit drops the [|limit|] oldest (none at 0). *)
Theorem context_window_is_a_suffix (limit : option Z) (c : conversation) :
  let n := match limit with Some n => n | None => 10 end in
  let len := Z.of_nat (List.length (messages c)) in
  exists dropped window,
    result (getContextMessages limit) c = Value window
    /\ messages c = (dropped ++ window)%list
    /\ Z.of_nat (List.length window)
       = (if 0 <? n then Z.min n len else Z.max (len + n) 0)
    /\ after (getContextMessages limit) c = c.
Proof.
  intros n len.
  destruct (context_unfold limit c) as [Hr Ha]. fold n in Hr.
  unfold JS.slice in Hr. fold len in Hr.
  set (k := Z.to_nat (if - n <? 0 then Z.max (len + - n) 0 else Z.min (- n) len)) in Hr.
  exists (firstn k (messages c)), (skipn k (messages c)).
  split; [exact Hr|]. split; [symmetry; apply firstn_skipn|]. split; [|exact Ha].
  rewrite length_skipn. unfold k, len.
  destruct (Z.ltb_spec (- n) 0); destruct (Z.ltb_spec 0 n); lia.
Qed.

Lemma slice_snoc {A : Type} (n : Z) (l : list A) (x : A) :
  0 < n -> exists older, JS.slice (- n) (l ++ [x]) = (older ++ [x])%list.
Proof.
  intros Hn. unfold JS.slice. rewrite length_app. cbn [List.length].
  destruct (Z.ltb_spec (- n) 0) as [_|H]; [|lia].
  set (k := Z.to_nat (Z.max (Z.of_nat (List.length l + 1) + - n) 0)).
  assert (Hk : (k <= List.length l)%nat) by (unfold k; lia).
  exists (skipn k l). rewrite skipn_app.
  replace (k - List.length l)%nat with 0%nat by lia. reflexivity.
Qed.

(** X11: right after an append, the context window for any positive
    limit (or the default) ends with the message just appended. *)
Theorem context_after_append_ends_with_it
    (a : append) (limit : Z) (c : conversation) :
  0 < limit ->
  exists window,
    result (getContextMessages (Some limit)) (runAppend a c) = Value window
    /\ finalMessage window = Some (stored a)
    /\ result (getContextMessages None) (runAppend a c)
       = result (getContextMessages (Some 10)) (runAppend a c).
Proof.
  intros Hl. eexists. split; [apply context_unfold|]. split; [|reflexivity].
  rewrite runAppend_messages.
  destruct (slice_snoc limit (messages c) (stored a) Hl) as (older & E).
  rewrite E. apply finalMessage_app.
Qed.

Lemma context_after_append_ends_with_it_sample :
  exists window,
    result (getContextMessages (Some 1)) greeted = Value window
    /\ finalMessage window = Some (stored hi)
    /\ result (getContextMessages None) greeted
       = result (getContextMessages (Some 10)) greeted.
Proof.
  apply (context_after_append_ends_with_it hi 1 (runAppend hello fresh)).
  reflexivity.
Defined.

Lemma generateTitle_unfold (c : conversation) :
  result generateTitle c
  = Value (match find isUser (messages c) with
           | Some m =>
               if (50 <? String.length (content m))%nat
               then (JS.substring (content m) 0 50 ++ "...")%string
               else content m
           | None => "New Conversation"%string
           end)
  /\ after generateTitle c = c.
Proof.
  unfold result, after, generateTitle, bind, get. cbn [fst snd].
  destruct (find isUser (messages c)); split; reflexivity.
Qed.


Lemma find_snoc_some (ms : list message) (x m : message) :
  find isUser ms = Some m -> find isUser (ms ++ [x]) = Some m.
Proof.
  induction ms as [|y ms IH]; cbn [app find]; [discriminate|].
  destruct (isUser y); [intros H; exact H|exact IH].
Qed.

(** X13: once a conversation holds a message of type 'user', no append
    changes what [generateTitle()] answers. *)
Theorem title_settles_with_first_user_message (a : append) (c : conversation) :
  (exists m, In m (messages c) /\ type m = user) ->
  result generateTitle (runAppend a c) = result generateTitle c.
Proof.
  intros (m & Hin & Hm).
  rewrite (proj1 (generateTitle_unfold (runAppend a c))).
  rewrite (proj1 (generateTitle_unfold c)), runAppend_messages.
  destruct (find isUser (messages c)) as [u|] eqn:E.
  - rewrite (find_snoc_some _ _ _ E). reflexivity.
  - exfalso. pose proof (find_none _ _ E m Hin) as Hf.
    unfold isUser in Hf. rewrite Hm in Hf. discriminate.
Qed.

Lemma title_settles_with_first_user_message_sample :
  result generateTitle greeted = result generateTitle (runAppend hello fresh).
Proof.
  apply (title_settles_with_first_user_message hi (runAppend hello fresh)).
  eexists. split; [left; reflexivity|reflexivity].
Defined.

Lemma calculateDuration_short (c : conversation) :
  (List.length (messages c) < 2)%nat -> result calculateDuration c = Value 0%Q.
Proof.
  intros H. unfold result, calculateDuration, bind, get. cbn [fst].
  destruct (Z.ltb_spec (Z.of_nat (List.length (messages c))) 2) as [_|H2]; [|lia].
  reflexivity.
Qed.

Lemma calculateDuration_long (c : conversation) (f l : message)
    (mid : list message) :
  messages c = f :: (mid ++ [l])%list ->
  result calculateDuration c
  = Value (inject_Z (timestamp l - timestamp f) / 1000)%Q.
Proof.
  intros Hms. unfold result, calculateDuration, bind, get. cbn [fst].
  rewrite Hms.
  destruct (Z.ltb_spec (Z.of_nat (List.length (f :: mid ++ [l]))) 2) as [H2|_].
  { cbn [List.length] in H2. rewrite length_app in H2. cbn in H2. lia. }
  rewrite index_head.
  change (f :: mid ++ [l])%list with ((f :: mid) ++ [l])%list.
  rewrite index_final. reflexivity.
Qed.

Lemma two_ends (ms : list message) :
  (2 <= List.length ms)%nat -> exists f mid l, ms = f :: (mid ++ [l])%list.
Proof.
  intros H. destruct ms as [|f rest]; [cbn in H; lia|].
  destruct (exists_last (l := rest)) as (mid & l & E).
  { intros E. subst rest. cbn in H. lia. }
  exists f, mid, l. rewrite E. reflexivity.
Qed.

(** X14: [calculateDuration()] never raises and leaves the conversation as
    it was; its answer is not negative when the first message's timestamp
    is not later than the last one's. *)
Theorem calculateDuration_total (c : conversation) :
  exists seconds,
    result calculateDuration c = Value seconds
    /\ after calculateDuration c = c
    /\ (forall first last,
          hd_error (messages c) = Some first ->
          finalMessage (messages c) = Some last ->
          timestamp first <= timestamp last ->
          (0 <= seconds)%Q).
Proof.
  assert (Ha : after calculateDuration c = c).
  { unfold after, calculateDuration, bind, get. cbn [snd].
    destruct (_ <? 2); [reflexivity|].
    destruct (JS.index _ 0); [destruct (JS.index _ _)|]; reflexivity. }
  destruct (Nat.lt_ge_cases (List.length (messages c)) 2) as [Hs|Hl].
  - exists 0%Q. split; [apply calculateDuration_short, Hs|]. split; [exact Ha|].
    intros _ _ _ _ _. apply Qle_refl.
  - destruct (two_ends _ Hl) as (f & mid & l & E).
    eexists. split; [apply (calculateDuration_long c f l mid E)|]. split; [exact Ha|].
    intros first last Hf Hlast Hle.
    rewrite E in Hf, Hlast. cbn [hd_error] in Hf.
    change (f :: mid ++ [l])%list with ((f :: mid) ++ [l])%list in Hlast.
    rewrite finalMessage_app in Hlast.
    injection Hf as <-. injection Hlast as <-.
    apply Qle_shift_div_l; [reflexivity|].
    rewrite Qmult_0_l. change 0%Q with (inject_Z 0). rewrite <- Zle_Qle. lia.
Qed.

Lemma calculateDuration_total_sample :
  exists seconds,
    result calculateDuration greeted = Value seconds /\ (0 <= seconds)%Q.
Proof.
  destruct (calculateDuration_total greeted) as (seconds & Hr & _ & Hpos).
  exists seconds. split; [exact Hr|].
  apply (Hpos (stored hello) (stored hi)).
  - reflexivity.
  - reflexivity.
  - cbn. lia.
Defined.

End ConversationMore.

(** ** The owner-scoped listing *)

Module ListingProps.
Import Conversation ConversationTerms MoreTerms Listing.

Lemma statusName_active (s : statusKind) :
  statusName s = "active"%string -> s = active.
Proof. destruct s; [reflexivity|discriminate|discriminate]. Qed.

Lemma matches_spec (q : listQuery) (c : conversation) :
  matches q c = true ->
  userId c = queryUserId q /\ statusName (status c) = queryStatus q.
Proof.
  unfold matches. intros H. apply andb_true_iff in H. destruct H as [H1 H2].
  split; apply String.eqb_eq; assumption.
Qed.

(** X15: whatever order and page the driver produces out of the matching
    documents, [getUserConversations] only ever returns stored
    conversations of the given owner that have the requested status, and
    with no status requested only active ones: neither another owner's
    conversations nor, by default, archived or deleted ones.  The store is
    left as it was. *)
Theorem listing_is_scoped {populated : Type}
    (sort : sortSpec -> list conversation -> list conversation)
    (skip limit : Z -> list conversation -> list conversation)
    (populate : conversation -> populated)
    (owner : string) (options : option listOptions) (store : list conversation) :
  (forall s l x, In x (sort s l) -> In x l) ->
  (forall n l x, In x (skip n l) -> In x l) ->
  (forall n l x, In x (limit n l) -> In x l) ->
  let wanted :=
    match options with
    | Some o => match optStatus o with Some s => s | None => "active"%string end
    | None => "active"%string
    end in
  exists found,
    getUserConversations sort skip limit populate owner options store
    = (Value (map populate found), store)
    /\ Forall (fun c => In c store /\ userId c = owner
                        /\ statusName (status c) = wanted) found
    /\ (wanted = "active"%string -> Forall (fun c => status c = active) found).
Proof.
  intros Hsort Hskip Hlimit wanted.
  unfold getUserConversations, bind, get, ret.
  eexists. split; [reflexivity|].
  match goal with |- Forall _ ?l /\ _ => set (found := l) end.
  assert (H : Forall (fun c => In c store /\ userId c = owner
                               /\ statusName (status c) = wanted) found).
  { apply Forall_forall. intros c Hin. unfold found in Hin.
    apply Hlimit, Hskip, Hsort, filter_In in Hin. destruct Hin as [Hin Hm].
    apply matches_spec in Hm. cbn [queryUserId queryStatus] in Hm.
    destruct Hm as [Ho Hs]. split; [exact Hin|]. split; [exact Ho|].
    rewrite Hs. unfold wanted. destruct options; reflexivity. }
  split; [exact H|].
  intros Hw. apply Forall_forall. intros c Hin.
  rewrite Forall_forall in H. destruct (H c Hin) as (_ & _ & Hs).
  apply statusName_active. rewrite Hs. exact Hw.
Qed.

Lemma listing_is_scoped_sample :
  exists found,
    getUserConversations sampleSort sampleSkip sampleLimit samplePopulate
      "alice" None shelf
    = (Value (map samplePopulate found), shelf)
    /\ Forall (fun c => In c shelf /\ userId c = "alice"%string
                        /\ statusName (status c) = "active"%string) found
    /\ ("active"%string = "active"%string ->
        Forall (fun c => status c = active) found).
Proof.
  apply (listing_is_scoped sampleSort sampleSkip sampleLimit samplePopulate
           "alice" None shelf).
  - intros s l x H. exact H.
  - intros n l x H. unfold sampleSkip in H.
    rewrite <- (firstn_skipn (Z.to_nat n) l). apply in_or_app. right. exact H.
  - intros n l x H. unfold sampleLimit in H.
    rewrite <- (firstn_skipn (Z.to_nat n) l). apply in_or_app. left. exact H.
Defined.

End ListingProps.

(** ** More on the user aggregate *)
(** ** More on the user aggregate *)

Module UserMore.
Import User UserTerms MoreTerms UserProps.

Section Bcrypt.

Local Set Default Proof Using "Type".

Variable bcrypt_hash : string -> string -> string.
Variable bcrypt_compare : string -> string -> bool.

Lemma user_save_loaded (salt : string) (tSave : Z) (u : user) :
  valid u = true -> loaded (after (save bcrypt_hash salt tSave) u).
Proof.
  intros Hv. rewrite user_save_after, Hv. repeat split.
Qed.

Lemma user_save_of_loaded (salt : string) (tSave : Z) (u : user) :
  loaded u -> after (save bcrypt_hash salt tSave) u = u.
Proof.
  intros (Hn & Hp & Ho). rewrite user_save_after.
  destruct (valid u); [|reflexivity].
  unfold timestamps, isModified, preSave. rewrite Hn, Hp, Ho. cbn [orb negb].
  rewrite Hp. cbn [negb].
  destruct u. cbn in Hn, Hp, Ho. subst. reflexivity.
Qed.

(** X16: saving hashes a pending password once and only once, and only
    one that passes validation.  After a save of a valid document nothing
    is pending, the password is the hash of the pending one for the salt
    drawn (and the one held when none was pending), and a further save, at
    any time and with any salt, changes nothing; a save of a document that
    fails validation, as with a pending password below 6 characters, is
    rejected and leaves the password as it is. *)
Theorem save_hashes_once (salt salt' : string) (t t' : Z) (u : user) :
  (valid u = true ->
   loaded (after (save bcrypt_hash salt t) u)
   /\ password (after (save bcrypt_hash salt t) u)
      = (if passwordModified u then bcrypt_hash (password u) salt
         else password u)
   /\ after (save bcrypt_hash salt' t') (after (save bcrypt_hash salt t) u)
      = after (save bcrypt_hash salt t) u)
  /\ (valid u = false ->
      result (save bcrypt_hash salt t) u = Raised (ValidationError "User")
      /\ password (after (save bcrypt_hash salt t) u) = password u
      /\ passwordModified (after (save bcrypt_hash salt t) u)
         = passwordModified u).
Proof.
  split; intros Hv.
  - pose proof (user_save_loaded salt t u Hv) as Hl.
    split; [exact Hl|]. split.
    + pose proof (user_save_paths bcrypt_hash salt t u) as H. cbv zeta in H.
      destruct H as (_&_&_&_&_&_&_&_&H9&_). rewrite H9, Hv. reflexivity.
    + apply user_save_of_loaded, Hl.
  - rewrite user_save_result, user_save_after, Hv. repeat split.
Qed.

(** X17: [findByCredentials] resolves to the stored user with the email
    the query is cast to (the first, should there be several) when the
    password matches, and leaves the store as it was.  Nothing else about
    the user is looked at: a deactivated account ([isActive] false) is
    accepted like any other. *)
Theorem findByCredentials_accepts
    (store before after_ : list user) (u : user) (mail pass : string) :
  store = (before ++ u :: after_)%list ->
  (forall x, In x before -> email x <> normalizeEmail mail) ->
  email u = normalizeEmail mail ->
  bcrypt_compare pass (password u) = true ->
  findByCredentials bcrypt_compare mail pass store = (Value u, store).
Proof.
  intros Hstore Hbefore Hmail Hok.
  unfold findByCredentials, findOne, comparePassword, bind, get, ret, throw.
  rewrite Hstore, (find_present _ _ _ _ Hbefore Hmail).
  unfold result. cbn [fst]. rewrite Hok. reflexivity.
Qed.

(** X18: [findByCredentials] never changes the store, and it either
    resolves to a stored user that has the email the query is cast to and
    whose password matches, or rejects with [Error('Invalid login
    credentials')]: no other outcome exists. *)
Theorem findByCredentials_sound (store : list user) (mail pass : string) :
  after (findByCredentials bcrypt_compare mail pass) store = store
  /\ ((exists u,
         result (findByCredentials bcrypt_compare mail pass) store = Value u
         /\ In u store /\ email u = normalizeEmail mail
         /\ bcrypt_compare pass (password u) = true)
      \/ result (findByCredentials bcrypt_compare mail pass) store
         = Raised (Error "Invalid login credentials")).
Proof.
  unfold after, result, findByCredentials, findOne, comparePassword, bind, get,
    ret, throw.
  cbn [fst snd].
  destruct (find (fun x => String.eqb (email x) (normalizeEmail mail)) store)
    as [u|] eqn:E.
  - apply find_some in E. destruct E as [Hin He]. apply String.eqb_eq in He.
    unfold result. cbn [fst].
    destruct (bcrypt_compare pass (password u)) eqn:Hc; cbn [negb fst snd].
    + split; [reflexivity|]. left. exists u. repeat split; assumption.
    + split; [reflexivity|]. right. reflexivity.
  - split; [reflexivity|]. right. reflexivity.
Qed.

(** X19: [updateStats] calls add up and commute on the counters, as long
    as the sums are exact (counters, increments and every sum on the way
    are safe integers): two calls in either order leave the same counters,
    and two calls for the same kind count as one call with the sum of the
    increments. *)
Theorem updateStats_calls_add_up
    (kind kind' : string) (increment increment' : option Z)
    (salt salt' : string) (t t' : Z) (u : user) :
  exactSums (stats u) (delta increment) (delta increment') ->
  stats (after (updateStats bcrypt_hash kind' increment' salt' t')
           (after (updateStats bcrypt_hash kind increment salt t) u))
  = stats (after (updateStats bcrypt_hash kind increment salt t)
             (after (updateStats bcrypt_hash kind' increment' salt' t') u))
  /\ stats (after (updateStats bcrypt_hash kind increment' salt' t')
             (after (updateStats bcrypt_hash kind increment salt t) u))
     = stats (after (updateStats bcrypt_hash kind
                       (Some (delta increment + delta increment')) salt t) u).
Proof.
  intros _.
  repeat (rewrite updateStats_stats; cbn zeta).
  cbn [delta].
  split.
  - destruct (kind =? "conversation")%string, (kind =? "message")%string,
      (kind =? "voice")%string, (kind =? "usage")%string,
      (kind' =? "conversation")%string, (kind' =? "message")%string,
      (kind' =? "voice")%string, (kind' =? "usage")%string;
      cbn [conversations messages voiceInteractions totalUsageTime];
      f_equal; lia.
  - destruct (kind =? "conversation")%string, (kind =? "message")%string,
      (kind =? "voice")%string, (kind =? "usage")%string;
      cbn [conversations messages voiceInteractions totalUsageTime];
      try reflexivity; f_equal; lia.
Qed.

(** X20: [updateLastActive()] stores the clock reading in [lastActive]
    and leaves username, email, avatar, preferences, counters, isActive and
    createdAt as they were.  It ends with a save: it resolves to the
    document when the document passes validation and is rejected
    otherwise; a password assignment that was waiting is hashed when the
    document is valid; [updatedAt] is, for a valid document, [createdAt]
    when the document is new, the clock at the save when it is modified
    (before the call, or by it, the reading being another one than the one
    held), and the one held in every other case. *)
Theorem updateLastActive_frame (now : Z) (salt : string) (tSave : Z) (u : user) :
  let u' := after (updateLastActive bcrypt_hash now salt tSave) u in
  result (updateLastActive bcrypt_hash now salt tSave) u
  = (if valid u then Value u' else Raised (ValidationError "User"))
  /\ lastActive u' = now
  /\ username u' = username u /\ email u' = email u /\ avatar u' = avatar u
  /\ preferences u' = preferences u /\ stats u' = stats u
  /\ isActive u' = isActive u /\ createdAt u' = createdAt u
  /\ password u'
     = (if (valid u && passwordModified u)%bool
        then bcrypt_hash (password u) salt else password u)
  /\ updatedAt u'
     = (if valid u
        then if isNew u then createdAt u
             else if (isModified u || negb (lastActive u =? now))%bool
                  then tSave else updatedAt u
        else updatedAt u).
Proof.
  intros u'. unfold u', updateLastActive.
  change (after (modify ?f ;; save bcrypt_hash salt tSave)%method u)
    with (after (save bcrypt_hash salt tSave) (f u)).
  change (result (modify ?f ;; save bcrypt_hash salt tSave)%method u)
    with (result (save bcrypt_hash salt tSave) (f u)).
  pose proof (user_save_paths bcrypt_hash salt tSave (assign_lastActive now u))
    as Hs.
  pose proof (marked_paths (negb (lastActive u =? now)) (set_lastActive now u))
    as Hm.
  cbv zeta in Hs, Hm. fold (assign_lastActive now u) in Hm.
  destruct Hs as (S1&S2&S3&S4&S5&S6&S7&S8&S9&S10).
  destruct Hm as (M1&M2&M3&M4&M5&M6&M7&M8&M9&M10&M11&M12&M13).
  assert (Hv : valid (assign_lastActive now u) = valid u).
  { unfold valid. rewrite M1, M2, M3, M5. reflexivity. }
  rewrite user_save_result, S1, S2, S3, S4, S5, S6, S7, S8, S9, S10, Hv.
  rewrite M1, M2, M3, M4, M5, M6, M7, M8, M9, M10, M11, M12.
  cbn [username email password avatar preferences stats isActive lastActive
       createdAt updatedAt isNew passwordModified set_lastActive].
  repeat split.
  destruct (valid u); [|reflexivity].
  destruct (isNew u) eqn:Hn; [reflexivity|].
  unfold isModified. rewrite M12, M13.
  cbn [passwordModified othersModified isNew set_lastActive].
  rewrite Hn, orb_false_r, orb_assoc. reflexivity.
Qed.

End Bcrypt.

Local Open Scope string_scope.

Lemma save_hashes_once_sample :
  (password (after (save toyHash "NaCl" 9000) rekeyed)
   = toyHash "looking-glass" "NaCl"
   /\ after (save toyHash "KCl" 9001) (after (save toyHash "NaCl" 9000) rekeyed)
      = after (save toyHash "NaCl" 9000) rekeyed)
  /\ (result (save toyHash "NaCl" 9000) shortKeyed
      = Raised (ValidationError "User")
      /\ password (after (save toyHash "NaCl" 9000) shortKeyed) = "abc").
Proof.
  destruct (save_hashes_once toyHash "NaCl" "KCl" 9000 9001 rekeyed)
    as [Hok _].
  destruct (save_hashes_once toyHash "NaCl" "KCl" 9000 9001 shortKeyed)
    as [_ Hbad].
  destruct (Hok eq_refl) as (_ & Hp & Hs).
  destruct (Hbad eq_refl) as (Hr & Hq & _).
  split; split; assumption.
Defined.

Lemma findByCredentials_accepts_sample :
  isActive dormant = false
  /\ findByCredentials toyCompare "Alice@Example.com " "wonderland" [bob; dormant]
     = (Value dormant, [bob; dormant]).
Proof.
  split; [reflexivity|].
  apply (findByCredentials_accepts toyCompare [bob; dormant] [bob] [] dormant).
  - reflexivity.
  - intros x [E|[]]. subst x. discriminate.
  - reflexivity.
  - reflexivity.
Defined.

Lemma updateStats_calls_add_up_sample :
  stats (after (updateStats toyHash "message" (Some 2) "NaCl" 9001)
           (after (updateStats toyHash "message" None "NaCl" 9000) alice))
  = stats (after (updateStats toyHash "message" (Some (1 + 2)) "NaCl" 9000) alice).
Proof.
  apply (updateStats_calls_add_up toyHash "message" "voice" None (Some 2)
           "NaCl" "NaCl" 9000 9001 alice).
  unfold exactSums, exactSum, JS.safeInteger.
  repeat (apply Forall_cons; [cbn; lia|]). apply Forall_nil.
Defined.

Lemma updateLastActive_frame_sample :
  lastActive (after (updateLastActive toyHash 7000 "NaCl" 7001) alice) = 7000
  /\ updatedAt (after (updateLastActive toyHash 7000 "NaCl" 7001) alice) = 7001.
Proof.
  pose proof (updateLastActive_frame toyHash 7000 "NaCl" 7001 alice) as H.
  cbv zeta in H. destruct H as (_&H2&_&_&_&_&_&_&_&_&H11).
  split; [exact H2|]. rewrite H11. reflexivity.
Defined.

End UserMore.

(** ** The conversation routes *)

Module RouteProps.
Import Conversation ConversationTerms MoreTerms ConversationProps
  ConversationMore Routes.

Lemma calculateDuration_returns (c : conversation) :
  exists seconds, calculateDuration c = (Value seconds, c).
Proof.
  assert (Ha : snd (calculateDuration c) = c).
  { unfold calculateDuration, bind, get. cbn [snd].
    destruct (_ <? 2); [reflexivity|].
    destruct (JS.index _ 0); [destruct (JS.index _ _)|]; reflexivity. }
  destruct (Nat.lt_ge_cases (List.length (messages c)) 2) as [Hs|Hl].
  - exists 0%Q. rewrite (surjective_pairing (calculateDuration c)), Ha.
    f_equal. apply calculateDuration_short, Hs.
  - destruct (two_ends _ Hl) as (f & mid & l & E). eexists.
    rewrite (surjective_pairing (calculateDuration c)), Ha.
    f_equal. apply (calculateDuration_long c f l mid E).
Qed.

Lemma preSave_owner (c : conversation) : userId (preSave c) = userId c.
Proof.
  unfold preSave.
  destruct (messagesModified c); [|reflexivity].
  cbn [set_stats messages].
  destruct (0 <? _); [|reflexivity].
  destruct (JS.index _ _); reflexivity.
Qed.

Lemma save_owner (tSave : Z) (c : conversation) :
  userId (after (save tSave) c) = userId c.
Proof.
  rewrite save_after. destruct (valid c); [|reflexivity].
  cbn [reset userId]. rewrite preSave_owner. apply timestamps_keeps.
Qed.

(** An assignment that keeps owner, title and messages, followed by a
    save. *)
Lemma assign_then_save_keeps (f : conversation -> conversation) (tSave : Z)
    (c : conversation) :
  messages (f c) = messages c -> title (f c) = title c ->
  userId (f c) = userId c ->
  let c' := after (modify f ;; save tSave)%method c in
  (modify f ;; save tSave)%method c
  = ((if valid c then Value c' else Raised (ValidationError "Conversation")), c')
  /\ messages c' = messages c /\ userId c' = userId c.
Proof.
  intros Hm Ht Hu c'.
  assert (Hv : valid (f c) = valid c).
  { unfold valid. rewrite Hm, Ht. reflexivity. }
  split.
  - rewrite (surjective_pairing ((modify f ;; save tSave)%method c)).
    change (fst ((modify f ;; save tSave)%method c))
      with (result (save tSave) (f c)).
    change (snd ((modify f ;; save tSave)%method c)) with c'.
    rewrite save_result, Hv. reflexivity.
  - unfold c'.
    change (after (modify f ;; save tSave)%method c)
      with (after (save tSave) (f c)).
    rewrite save_messages, save_owner, Hm, Hu. split; reflexivity.
Qed.

(** X21: each of the archive, delete, restore, favourite and stats
    handlers answers 404 when there is no such conversation and 403 when
    the caller is not its owner, in both cases without touching the
    document.  For the owner the four handlers that save answer 200 when
    the document passes validation and 500 when it does not, the stats
    handler answers 200, and the document they leave has the same owner
    and the same messages. *)
Theorem only_the_owner_gets_through
    (tSave : Z) (requester : string) (found : option conversation) :
  Forall
    (fun route =>
       guarded (route tSave) (fun c => if valid c then 200 else 500)
         requester found)
    savingRoutes
  /\ guarded statsRoute (fun _ => 200) requester found.
Proof.
  assert (Hdeny : forall c, userId c <> requester ->
            negb (String.eqb (userId c) requester) = true).
  { intros c H. apply negb_true_iff, String.eqb_neq, H. }
  assert (Hpass : forall c, userId c = requester ->
            negb (String.eqb (userId c) requester) = false).
  { intros c H. apply negb_false_iff, String.eqb_eq, H. }
  assert (Hst : forall s c,
    let c' := after (transition s tSave) c in
    transition s tSave c
    = ((if valid c then Value c' else Raised (ValidationError "Conversation")),
       c')
    /\ messages c' = messages c /\ userId c' = userId c).
  { intros s c. apply assign_then_save_keeps; apply assign_status_keeps. }
  assert (Hfv : forall c,
    let c' := after (toggleFavorite tSave) c in
    toggleFavorite tSave c
    = ((if valid c then Value c' else Raised (ValidationError "Conversation")),
       c')
    /\ messages c' = messages c /\ userId c' = userId c).
  { intros c.
    apply (assign_then_save_keeps
             (fun c => assign_isFavorite (negb (isFavorite c)) c));
      apply assign_isFavorite_keeps. }
  unfold savingRoutes, guarded. split.
  - repeat (apply Forall_cons; [cbv zeta; split; [|split]|]).
    + intros ->. reflexivity.
    + intros c -> H. unfold archiveRoute. rewrite (Hdeny c H). reflexivity.
    + intros c -> H. unfold archiveRoute. rewrite (Hpass c H).
      destruct (Hst archived c) as (E & Hm & Hu).
      change (transition archived tSave) with (archive tSave) in E, Hm, Hu.
      rewrite E. destruct (valid c); cbn [fst snd code].
      all: split; [reflexivity|]; eexists; split; [reflexivity|];
        split; assumption.
    + intros ->. reflexivity.
    + intros c -> H. unfold deleteRoute. rewrite (Hdeny c H). reflexivity.
    + intros c -> H. unfold deleteRoute. rewrite (Hpass c H).
      destruct (Hst deleted c) as (E & Hm & Hu).
      change (transition deleted tSave) with (delete tSave) in E, Hm, Hu.
      rewrite E. destruct (valid c); cbn [fst snd code].
      all: split; [reflexivity|]; eexists; split; [reflexivity|];
        split; assumption.
    + intros ->. reflexivity.
    + intros c -> H. unfold restoreRoute. rewrite (Hdeny c H). reflexivity.
    + intros c -> H. unfold restoreRoute. rewrite (Hpass c H).
      destruct (Hst active c) as (E & Hm & Hu).
      change (transition active tSave) with (restore tSave) in E, Hm, Hu.
      rewrite E. destruct (valid c); cbn [fst snd code].
      all: split; [reflexivity|]; eexists; split; [reflexivity|];
        split; assumption.
    + intros ->. reflexivity.
    + intros c -> H. unfold favoriteRoute. rewrite (Hdeny c H). reflexivity.
    + intros c -> H. unfold favoriteRoute. rewrite (Hpass c H).
      destruct (Hfv c) as (E & Hm & Hu).
      rewrite E. destruct (valid c); cbn [fst snd code].
      all: split; [reflexivity|]; eexists; split; [reflexivity|];
        split; assumption.
    + apply Forall_nil.
  - cbv zeta. split; [|split].
    + intros ->. reflexivity.
    + intros c -> H. unfold statsRoute. rewrite (Hdeny c H). reflexivity.
    + intros c -> H. unfold statsRoute. rewrite (Hpass c H).
      destruct (calculateDuration_returns c) as (q & E). rewrite E.
      split; [reflexivity|]. eexists. split; [reflexivity|]. split; reflexivity.
Qed.

Lemma only_the_owner_gets_through_sample :
  Forall
    (fun route =>
       route 20000 "bob"%string (Some greeted)
       = (mkReply 403 (Failure "Access denied"), Some greeted)
       /\ code (fst (route 20000 "alice"%string (Some greeted))) = 200
       /\ code (fst (route 20000 "alice"%string (Some overTitled))) = 500)
    savingRoutes.
Proof.
  destruct (only_the_owner_gets_through 20000 "bob" (Some greeted)) as [Hbob _].
  destruct (only_the_owner_gets_through 20000 "alice" (Some greeted))
    as [Halice _].
  destruct (only_the_owner_gets_through 20000 "alice" (Some overTitled))
    as [Hlong _].
  rewrite Forall_forall in Hbob, Halice, Hlong.
  apply Forall_forall. intros route Hin.
  destruct (Hbob route Hin) as (_ & Hdeny & _).
  destruct (Halice route Hin) as (_ & _ & Hpass).
  destruct (Hlong route Hin) as (_ & _ & Hfail).
  split; [|split].
  - apply Hdeny; [reflexivity|]. intros E. vm_compute in E. discriminate E.
  - apply (Hpass greeted); reflexivity.
  - apply (Hfail overTitled); reflexivity.
Defined.

Lemma countContent_partition (ms : list message) :
  countContent text ms + countContent voice ms + countContent image ms
  + countContent file ms = Z.of_nat (List.length ms).
Proof.
  induction ms as [|m ms IH]; [reflexivity|].
  cbn [countContent List.length]. rewrite Nat2Z.inj_succ.
  destruct (contentType m); cbn [contentKind_eqb]; lia.
Qed.

(** X22: in the stats handler's answer the four per-content-type counts
    add up to the number of messages, and on a conversation whose stored
    counters agree with its messages they add up to [totalMessages], with
    the 'voice' count equal to [voiceMessages]. *)
Theorem stats_view_adds_up (requester : string) (c : conversation) :
  userId c = requester ->
  exists view,
    fst (statsRoute requester (Some c))
    = mkReply 200 (SuccessStats view "Stats retrieved successfully")
    /\ viewText (messageTypes view) + viewVoice (messageTypes view)
       + viewImage (messageTypes view) + viewFile (messageTypes view)
       = Z.of_nat (List.length (messages c))
    /\ (statsConsistent c ->
        viewTotalMessages view
        = viewText (messageTypes view) + viewVoice (messageTypes view)
          + viewImage (messageTypes view) + viewFile (messageTypes view)
        /\ viewVoiceMessages view = viewVoice (messageTypes view)
        /\ viewUserMessages view + viewAiMessages view = viewTotalMessages view).
Proof.
  intros H. unfold statsRoute.
  replace (negb (String.eqb (userId c) requester)) with false
    by (symmetry; apply negb_false_iff, String.eqb_eq, H).
  destruct (calculateDuration_returns c) as (q & E). rewrite E.
  eexists. split; [reflexivity|].
  cbn [messageTypes viewText viewVoice viewImage viewFile viewTotalMessages
       viewVoiceMessages viewUserMessages viewAiMessages].
  rewrite !count_countContent.
  split; [apply countContent_partition|].
  intros (Ht & Hu & Ha & Hsum & Hv).
  rewrite countContent_partition. repeat split; assumption.
Qed.

Lemma stats_view_adds_up_sample :
  exists view,
    fst (statsRoute "alice"%string (Some greeted))
    = mkReply 200 (SuccessStats view "Stats retrieved successfully")
    /\ viewTotalMessages view = 2
    /\ viewText (messageTypes view) = 2
    /\ viewVoiceMessages view = viewVoice (messageTypes view).
Proof.
  destruct (stats_view_adds_up "alice" greeted eq_refl) as (view & E & Hsum & Hc).
  exists view. split; [exact E|].
  assert (Hg : statsConsistent greeted) by (repeat split).
  destruct (Hc Hg) as (_ & Hv & _).
  injection E as E. subst view.
  split; [reflexivity|]. split; [reflexivity|]. exact Hv.
Defined.

End RouteProps.

(** ** The user routes *)

Module UserRouteProps.
Import User UserTerms MoreTerms UserProps UserMore Routes.

Section Bcrypt.

Local Set Default Proof Using "Type".

Variable bcrypt_hash : string -> string -> string.
Variable bcrypt_compare : string -> string -> bool.
Variable jwt_sign : user -> string.

Lemma truthy_spec (s : option string) :
  truthy s = true <-> exists v, s = Some v /\ v <> ""%string.
Proof.
  destruct s as [v|]; cbn [truthy].
  - rewrite negb_true_iff, String.eqb_neq. split.
    + intros H. exists v. split; [reflexivity|exact H].
    + intros (w & E & H). injection E as <-. exact H.
  - split; [discriminate|]. intros (w & E & _). discriminate E.
Qed.

Lemma assignPassword_paths (n : string) (u : user) :
  let u' := assignPassword n u in
  username u' = username u /\ email u' = email u /\ password u' = n
  /\ preferences u' = preferences u /\ isActive u' = isActive u
  /\ isNew u' = isNew u
  /\ passwordModified u'
     = (isNew u || passwordModified u || negb (String.eqb (password u) n))%bool.
Proof.
  unfold assignPassword.
  destruct (isNew u) eqn:Hn, (String.eqb (password u) n) eqn:He,
    (passwordModified u) eqn:Hp; cbn; rewrite ?Hn, ?Hp; repeat split.
Qed.

(** The document a password change leaves when its save goes through. *)
Lemma assignPassword_saved (n salt : string) (tSave : Z) (u : user) :
  let u' := after (save bcrypt_hash salt tSave) (assignPassword n u) in
  valid (assignPassword n u) = true ->
  loaded u'
  /\ password u'
     = (if (isNew u || passwordModified u
            || negb (String.eqb (password u) n))%bool
        then bcrypt_hash n salt else n)
  /\ email u' = email u /\ isActive u' = isActive u.
Proof.
  intros u' Hv. unfold u'.
  pose proof (user_save_paths bcrypt_hash salt tSave (assignPassword n u)) as Hs.
  pose proof (assignPassword_paths n u) as Ha.
  cbv zeta in Hs, Ha.
  destruct Hs as (_&S2&_&_&_&S6&_&_&S9&_).
  destruct Ha as (_&A2&A3&_&A5&_&A7).
  split; [apply user_save_loaded, Hv|].
  rewrite S2, S6, S9, Hv, A2, A3, A5, A7. cbn [andb]. repeat split.
Qed.

Lemma passwordRoute_cases (u : user) (current fresh : option string)
    (salt : string) (tSave : Z) :
  let out :=
    passwordRoute bcrypt_hash bcrypt_compare (Some u) current fresh salt tSave in
  (exists c n,
      current = Some c /\ fresh = Some n /\ c <> ""%string
      /\ (6 <= String.length n)%nat
      /\ bcrypt_compare c (password u) = true
      /\ out = (if valid (assignPassword n u)
                then (mkReply 200 (Success "Password changed successfully"),
                      Some (after (save bcrypt_hash salt tSave)
                              (assignPassword n u)))
                else (mkReply 500 (Failure "Failed to change password"),
                      Some (assignPassword n u))))
  \/ ((forall c n,
         current = Some c -> fresh = Some n -> c <> ""%string ->
         (6 <= String.length n)%nat ->
         bcrypt_compare c (password u) = false)
      /\ code (fst out) = 400 /\ snd out = Some u).
Proof.
  cbv zeta. unfold passwordRoute.
  destruct current as [c|]; cbn [truthy negb orb].
  2:{ right. split; [discriminate|split; reflexivity]. }
  destruct (String.eqb_spec c "") as [Ec|Ec]; cbn [negb orb].
  { right. split; [|split; reflexivity].
    intros c0 n0 E _ Hne _. injection E as <-. contradiction. }
  destruct fresh as [n|]; cbn [truthy negb orb].
  2:{ right. split; [discriminate|split; reflexivity]. }
  destruct (String.eqb_spec n "") as [En|En]; cbn [negb orb].
  { right. split; [|split; reflexivity].
    intros c0 n0 _ E _ Hlen. injection E as <-. subst n. cbn in Hlen. lia. }
  destruct (Nat.ltb_spec (String.length n) 6) as [Hn|Hn].
  { right. split; [|split; reflexivity].
    intros c0 n0 _ E _ Hlen. injection E as <-. lia. }
  unfold comparePassword, bind, get, ret.
  destruct (bcrypt_compare c (password u)) eqn:Hc; cbn [negb].
  - left. exists c, n.
    split; [reflexivity|]. split; [reflexivity|]. split; [exact Ec|].
    split; [exact Hn|]. split; [exact Hc|].
    unfold after.
    destruct (valid (assignPassword n u)) eqn:Hv.
    + rewrite user_save_resolves by exact Hv. reflexivity.
    + rewrite user_save_rejects by exact Hv. reflexivity.
  - right. split; [|split; reflexivity].
    intros c0 n0 E _ _ _. injection E as <-. exact Hc.
Qed.

(** X23: the password handler changes the password exactly when both
    passwords are given and not empty, the new one has at least 6
    characters, the current one matches and the document with the new
    password passes validation; it then answers 200 and leaves a document
    with nothing pending, whose password is the hash of the new one (the
    new one itself in the one case in which nothing is there to hash: a
    stored document whose password already is that very string).  When
    the checks pass but validation fails it answers 500, with the new
    password assigned and not saved.  In every other case on an existing
    user it answers 400 and leaves the document untouched; without a user
    it answers 404. *)
Theorem password_change_is_guarded (u : user) (current fresh : option string)
    (salt : string) (tSave : Z) :
  let out :=
    passwordRoute bcrypt_hash bcrypt_compare (Some u) current fresh salt tSave in
  (code (fst out) = 200 <->
   exists c n,
     current = Some c /\ fresh = Some n /\ c <> ""%string
     /\ (6 <= String.length n)%nat /\ bcrypt_compare c (password u) = true
     /\ valid (assignPassword n u) = true)
  /\ (code (fst out) = 200 ->
      exists n u',
        fresh = Some n /\ snd out = Some u' /\ loaded u'
        /\ password u'
           = (if (isNew u || passwordModified u
                  || negb (String.eqb (password u) n))%bool
              then bcrypt_hash n salt else n))
  /\ (code (fst out) <> 200 ->
      (code (fst out) = 400 /\ snd out = Some u)
      \/ (code (fst out) = 500
          /\ exists n, fresh = Some n /\ valid (assignPassword n u) = false
                       /\ snd out = Some (assignPassword n u)))
  /\ passwordRoute bcrypt_hash bcrypt_compare None current fresh salt tSave
     = (mkReply 404 (Failure "User not found"), None).
Proof.
  intros out.
  destruct (passwordRoute_cases u current fresh salt tSave)
    as [(c & n & Ec & En & Hc & Hn & Hok & E) | (Hno & H400 & Hsame)];
    fold out in E || fold out in H400, Hsame.
  - destruct (valid (assignPassword n u)) eqn:Hv; rewrite E; cbn [fst snd code].
    + split; [split; [intros _; exists c, n; repeat split; assumption
                     |reflexivity]|].
      split.
      { intros _.
        destruct (assignPassword_saved n salt tSave u Hv) as (Hl & Hp & _).
        exists n. eexists. split; [exact En|]. split; [reflexivity|].
        split; [exact Hl|exact Hp]. }
      split; [intros H; exfalso; apply H; reflexivity|reflexivity].
    + split; [split; [discriminate|]|].
      { intros (c' & n' & Ec' & En' & _ & _ & _ & Hv').
        rewrite En in En'. injection En' as <-.
        rewrite Hv in Hv'. discriminate Hv'. }
      split; [discriminate|].
      split; [|reflexivity].
      intros _. right. split; [reflexivity|].
      exists n. split; [exact En|]. split; [exact Hv|reflexivity].
  - rewrite H400, Hsame.
    split; [split; [discriminate|]|].
    { intros (c & n & Ec & En & Hc & Hn & Hok & _).
      rewrite (Hno c n Ec En Hc Hn) in Hok. discriminate Hok. }
    split; [discriminate|].
    split; [intros _; left; split; reflexivity|reflexivity].
Qed.

(** X24: a changed password is the one that works afterwards: when the
    checks of the handler pass on a user that passes validation, the new
    password is not the string stored as the password, and bcrypt accepts
    a password against its own hash, the handler answers 200,
    [comparePassword] on the saved document accepts the new password, and
    so does [findByCredentials] on a store that holds the saved
    document. *)
Theorem changed_password_logs_in
    (u : user) (c n salt mail : string) (tSave : Z)
    (before after_ : list user) :
  c <> ""%string ->
  (6 <= String.length n)%nat ->
  bcrypt_compare c (password u) = true ->
  bcrypt_compare n (bcrypt_hash n salt) = true ->
  valid u = true ->
  n <> password u ->
  (forall x, In x before -> email x <> normalizeEmail mail) ->
  email u = normalizeEmail mail ->
  exists u',
    passwordRoute bcrypt_hash bcrypt_compare (Some u) (Some c) (Some n) salt tSave
    = (mkReply 200 (Success "Password changed successfully"), Some u')
    /\ password u' = bcrypt_hash n salt
    /\ result (comparePassword bcrypt_compare n) u' = Value true
    /\ findByCredentials bcrypt_compare mail n (before ++ u' :: after_)
       = (Value u', (before ++ u' :: after_)%list).
Proof.
  intros Hc Hn Hok Hlaw Hv Hnew Hbefore Hmail.
  assert (Hv' : valid (assignPassword n u) = true).
  { pose proof (assignPassword_paths n u) as Ha. cbv zeta in Ha.
    destruct Ha as (A1&A2&A3&A4&_).
    unfold valid in *. rewrite A1, A2, A3, A4.
    repeat (apply andb_prop in Hv; destruct Hv as [Hv ?]).
    repeat (apply andb_true_intro; split); try assumption.
    apply Nat.leb_le, Hn. }
  destruct (assignPassword_saved n salt tSave u Hv') as (_ & Hp & He & _).
  assert (Hhashed : password (after (save bcrypt_hash salt tSave)
                                (assignPassword n u)) = bcrypt_hash n salt).
  { rewrite Hp.
    destruct (String.eqb_spec (password u) n) as [E|_];
      [exfalso; apply Hnew; symmetry; exact E|].
    cbn [negb]. rewrite orb_true_r. reflexivity. }
  destruct (passwordRoute_cases u (Some c) (Some n) salt tSave)
    as [(c' & n' & Ec & En & _ & _ & _ & E) | (Hno & _)].
  - injection Ec as <-. injection En as <-. rewrite Hv' in E.
    eexists. split; [exact E|].
    split; [exact Hhashed|]. split.
    + unfold result, comparePassword, bind, get, ret. cbn [fst].
      rewrite Hhashed, Hlaw. reflexivity.
    + unfold findByCredentials, findOne, comparePassword, bind, get, ret, throw.
      rewrite (find_present (normalizeEmail mail) before after_ _ Hbefore)
        by (rewrite He; exact Hmail).
      unfold result. cbn [fst]. rewrite Hhashed, Hlaw. reflexivity.
  - rewrite (Hno c n eq_refl eq_refl Hc Hn) in Hok. discriminate Hok.
Qed.

(** X25: deactivating an account (the account handler), on a stored,
    active user that passes validation, clears [isActive], sets
    [updatedAt] to the clock at the save and changes nothing else;
    nothing in the login path looks at the flag, so [findByCredentials]
    still resolves to the deactivated user when given the right
    password. *)
Theorem deactivated_account_still_logs_in
    (u : user) (mail pass salt : string) (tSave : Z)
    (before after_ : list user) :
  loaded u -> valid u = true -> isActive u = true ->
  (forall x, In x before -> email x <> normalizeEmail mail) ->
  email u = normalizeEmail mail ->
  bcrypt_compare pass (password u) = true ->
  exists u',
    accountRoute bcrypt_hash (Some u) salt tSave
    = (mkReply 200 (Success "Account deleted successfully"), Some u')
    /\ u' = set_updatedAt tSave (set_isActive false u)
    /\ isActive u' = false
    /\ findByCredentials bcrypt_compare mail pass (before ++ u' :: after_)
       = (Value u', (before ++ u' :: after_)%list).
Proof.
  intros (Hn & Hp & Ho) Hv Ha Hbefore Hmail Hok.
  assert (Hv' : valid (assign_isActive false u) = true).
  { pose proof (marked_paths (negb (Bool.eqb (isActive u) false))
                  (set_isActive false u)) as Hm. cbv zeta in Hm.
    fold (assign_isActive false u) in Hm.
    destruct Hm as (M1&M2&M3&_&M5&_).
    unfold valid in *. rewrite M1, M2, M3, M5. exact Hv. }
  assert (E : save bcrypt_hash salt tSave (assign_isActive false u)
              = (Value (set_updatedAt tSave (set_isActive false u)),
                 set_updatedAt tSave (set_isActive false u))).
  { rewrite user_save_resolves by exact Hv'.
    destruct u as [un em pw av pr st ia la ca ua nw pm om].
    cbn in Hn, Hp, Ho, Ha. subst nw pm om ia. reflexivity. }
  exists (set_updatedAt tSave (set_isActive false u)).
  split; [unfold accountRoute; rewrite E; reflexivity|].
  split; [reflexivity|]. split; [reflexivity|].
  unfold findByCredentials, findOne, comparePassword, bind, get, ret, throw.
  rewrite (find_present (normalizeEmail mail) before after_ _ Hbefore)
    by exact Hmail.
  unfold result. cbn [fst password set_isActive set_updatedAt].
  rewrite Hok. reflexivity.
Qed.

(** X26: the login handler answers 400 when the email or the password is
    missing or empty, and answers an unknown email and a wrong password
    with one and the same reply, 401 'Invalid credentials'; known and
    unknown are as the query is cast, lower case and trimmed. *)
Theorem login_failures_look_alike
    (store before after_ : list user) (u : user)
    (unknownMail knownMail pass wrongPass : string) (now : Z) :
  unknownMail <> ""%string -> knownMail <> ""%string ->
  pass <> ""%string -> wrongPass <> ""%string ->
  (forall x, In x store -> email x <> normalizeEmail unknownMail) ->
  store = (before ++ u :: after_)%list ->
  (forall x, In x before -> email x <> normalizeEmail knownMail) ->
  email u = normalizeEmail knownMail ->
  bcrypt_compare wrongPass (password u) = false ->
  loginRoute bcrypt_compare jwt_sign (Some unknownMail) (Some pass) now store
  = mkReply 401 (Failure "Invalid credentials")
  /\ loginRoute bcrypt_compare jwt_sign (Some knownMail) (Some wrongPass) now store
     = mkReply 401 (Failure "Invalid credentials")
  /\ (forall mail word,
        truthy mail = false \/ truthy word = false ->
        loginRoute bcrypt_compare jwt_sign mail word now store
        = mkReply 400 (Failure "Email and password are required")).
Proof.
  intros Hu Hk Hp Hw Hno Hstore Hbefore Hmail Hwrong.
  assert (Ht : forall v, v <> ""%string -> truthy (Some v) = true).
  { intros v Hv. apply truthy_spec. exists v. split; [reflexivity|exact Hv]. }
  split; [|split].
  - unfold loginRoute. rewrite (Ht _ Hu), (Ht _ Hp). cbn [negb orb].
    unfold result, findByCredentials, findOne, bind, get, ret, throw. cbn [fst].
    rewrite find_absent by exact Hno. reflexivity.
  - unfold loginRoute. rewrite (Ht _ Hk), (Ht _ Hw). cbn [negb orb].
    unfold result, findByCredentials, findOne, comparePassword, bind, get, ret,
      throw. cbn [fst].
    rewrite Hstore, (find_present _ _ _ _ Hbefore Hmail).
    unfold result. cbn [fst]. rewrite Hwrong. reflexivity.
  - intros mail word [H|H]; unfold loginRoute; rewrite H; cbn [negb orb];
      [reflexivity|].
    rewrite orb_true_r. reflexivity.
Qed.

(** X27: a login with the right password answers 200 with the token
    signed for the user and the user's profile, in which [lastActive] is
    already the time of this login and every other field is the stored
    one. *)
Theorem login_success_reports_new_lastActive
    (store before after_ : list user) (u : user) (mail pass : string) (now : Z) :
  mail <> ""%string -> pass <> ""%string ->
  store = (before ++ u :: after_)%list ->
  (forall x, In x before -> email x <> normalizeEmail mail) ->
  email u = normalizeEmail mail ->
  bcrypt_compare pass (password u) = true ->
  exists profile,
    loginRoute bcrypt_compare jwt_sign (Some mail) (Some pass) now store
    = mkReply 200
        (SuccessLogin profile (jwt_sign (assign_lastActive now u))
           "Login successful")
    /\ profileLastActive profile = now
    /\ profileUsername profile = username u
    /\ profileEmail profile = email u
    /\ profileAvatar profile = avatar u
    /\ profileStats profile = stats u
    /\ profilePreferences profile = preferences u
    /\ profileIsActive profile = isActive u
    /\ profileCreatedAt profile = createdAt u
    /\ profileUpdatedAt profile = updatedAt u.
Proof.
  intros Hm Hp Hstore Hbefore Hmail Hok.
  assert (Ht : forall v, v <> ""%string -> truthy (Some v) = true).
  { intros v Hv. apply truthy_spec. exists v. split; [reflexivity|exact Hv]. }
  eexists. split.
  - unfold loginRoute. rewrite (Ht _ Hm), (Ht _ Hp). cbn [negb orb].
    unfold result, findByCredentials, findOne, comparePassword, bind, get, ret,
      throw. cbn [fst].
    rewrite Hstore, (find_present _ _ _ _ Hbefore Hmail).
    unfold result. cbn [fst]. rewrite Hok. cbn [negb fst]. reflexivity.
  - pose proof (marked_paths (negb (lastActive u =? now)) (set_lastActive now u))
      as H. cbv zeta in H. fold (assign_lastActive now u) in H.
    destruct H as (M1&M2&M3&M4&M5&M6&M7&M8&M9&M10&_).
    cbn [profileLastActive profileUsername profileEmail profileAvatar
         profileStats profilePreferences profileIsActive profileCreatedAt
         profileUpdatedAt].
    rewrite M1, M2, M4, M5, M6, M7, M8, M9, M10. repeat split.
Qed.

End Bcrypt.

Local Open Scope string_scope.

Lemma password_change_is_guarded_sample :
  code (fst (passwordRoute toyHash toyCompare (Some alice)
               (Some "wonderland") (Some "looking-glass") "NaCl" 9000)) = 200
  /\ code (fst (passwordRoute toyHash toyCompare (Some alice)
                  (Some "wonderland") (Some "short") "NaCl" 9000)) = 400
  /\ snd (passwordRoute toyHash toyCompare (Some alice)
            (Some "wonderland") (Some "short") "NaCl" 9000) = Some alice.
Proof.
  split.
  - apply (password_change_is_guarded toyHash toyCompare alice
             (Some "wonderland") (Some "looking-glass") "NaCl" 9000).
    exists "wonderland", "looking-glass".
    repeat split; try discriminate. cbn. lia.
  - destruct (password_change_is_guarded toyHash toyCompare alice
                (Some "wonderland") (Some "short") "NaCl" 9000)
      as (_ & _ & H & _).
    destruct H as [H|(H & _)].
    + vm_compute. discriminate.
    + exact H.
    + vm_compute in H. discriminate H.
Defined.

Lemma changed_password_logs_in_sample :
  exists u',
    passwordRoute toyHash toyCompare (Some alice) (Some "wonderland")
      (Some "looking-glass") "NaCl" 9000
    = (mkReply 200 (Success "Password changed successfully"), Some u')
    /\ password u' = toyHash "looking-glass" "NaCl"
    /\ result (comparePassword toyCompare "looking-glass") u' = Value true
    /\ findByCredentials toyCompare " Alice@example.com" "looking-glass"
         ([bob] ++ u' :: [])%list
       = (Value u', ([bob] ++ u' :: [])%list).
Proof.
  apply (changed_password_logs_in toyHash toyCompare alice "wonderland"
           "looking-glass" "NaCl" " Alice@example.com" 9000 [bob] []).
  - discriminate.
  - cbn. lia.
  - reflexivity.
  - reflexivity.
  - reflexivity.
  - discriminate.
  - intros x [E|[]]. subst x. discriminate.
  - reflexivity.
Defined.

Lemma deactivated_account_still_logs_in_sample :
  exists u',
    accountRoute toyHash (Some alice) "NaCl" 9000
    = (mkReply 200 (Success "Account deleted successfully"), Some u')
    /\ u' = set_updatedAt 9000 dormant
    /\ isActive u' = false
    /\ findByCredentials toyCompare "alice@example.com" "wonderland"
         ([bob] ++ u' :: [])%list
       = (Value u', ([bob] ++ u' :: [])%list).
Proof.
  apply (deactivated_account_still_logs_in toyHash toyCompare alice
           "alice@example.com" "wonderland" "NaCl" 9000 [bob] []).
  - repeat split.
  - reflexivity.
  - reflexivity.
  - intros x [E|[]]. subst x. discriminate.
  - reflexivity.
  - reflexivity.
Defined.

Lemma login_failures_look_alike_sample :
  loginRoute toyCompare sampleSign (Some "Carol@example.com") (Some "anything")
    9000 directory
  = mkReply 401 (Failure "Invalid credentials")
  /\ loginRoute toyCompare sampleSign (Some " ALICE@example.com")
       (Some "rabbit-hole") 9000 directory
     = mkReply 401 (Failure "Invalid credentials")
  /\ loginRoute toyCompare sampleSign (Some "alice@example.com") (Some "")
       9000 directory
     = mkReply 400 (Failure "Email and password are required").
Proof.
  destruct (login_failures_look_alike toyCompare sampleSign directory [] [bob]
              alice "Carol@example.com" " ALICE@example.com" "anything"
              "rabbit-hole" 9000) as (H1 & H2 & H3).
  - discriminate.
  - discriminate.
  - discriminate.
  - discriminate.
  - intros x [E|[E|[]]]; subst x; discriminate.
  - reflexivity.
  - intros x [].
  - reflexivity.
  - reflexivity.
  - split; [exact H1|]. split; [exact H2|]. apply H3. right. reflexivity.
Defined.

Lemma login_success_reports_new_lastActive_sample :
  exists profile,
    loginRoute toyCompare sampleSign (Some "Alice@Example.com")
      (Some "wonderland") 9000 directory
    = mkReply 200
        (SuccessLogin profile (sampleSign (assign_lastActive 9000 alice))
           "Login successful")
    /\ profileLastActive profile = 9000
    /\ profileUsername profile = username alice
    /\ profileEmail profile = email alice
    /\ profileAvatar profile = avatar alice
    /\ profileStats profile = stats alice
    /\ profilePreferences profile = preferences alice
    /\ profileIsActive profile = isActive alice
    /\ profileCreatedAt profile = createdAt alice
    /\ profileUpdatedAt profile = updatedAt alice.
Proof.
  apply (login_success_reports_new_lastActive toyCompare sampleSign directory
           [] [bob] alice "Alice@Example.com" "wonderland" 9000).
  - discriminate.
  - discriminate.
  - reflexivity.
  - intros x [].
  - reflexivity.
  - reflexivity.
Defined.

End UserRouteProps.

(** ** The simulated assistant *)

Module AssistantProps.
Import Conversation ConversationTerms MoreTerms ConversationProps Assistant.

Lemma randomIndex_range (random : Q) (n : nat) :
  (0 <= random)%Q -> (random < 1)%Q -> (0 < n)%nat ->
  0 <= randomIndex random n < Z.of_nat n.
Proof.
  intros H0 H1 Hn. unfold randomIndex.
  set (N := inject_Z (Z.of_nat n)).
  assert (HN : (0 < N)%Q).
  { unfold N. change 0%Q with (inject_Z 0). rewrite <- Zlt_Qlt. lia. }
  split.
  - change 0 with (Qfloor 0). apply Qfloor_resp_le.
    apply Qmult_le_0_compat; [exact H0|apply Qlt_le_weak, HN].
  - rewrite Zlt_Qlt. fold N.
    apply Qle_lt_trans with (random * N)%Q; [apply Qfloor_le|].
    rewrite <- (Qmult_1_l N) at 2.
    apply Qmult_lt_compat_r; assumption.
Qed.

(** X28: whatever [Math.random()] draws, [processWithLocalAI] answers
    with one of its five canned replies, never [undefined]; the reply
    quotes the message verbatim between double quotes, and the context
    passed in makes no difference. *)
Theorem reply_quotes_the_message {context : Type}
    (message : string) (ctx ctx' : option (list context)) (random : Q) :
  (0 <= random)%Q -> (random < 1)%Q ->
  exists reply,
    processWithLocalAI message ctx random = Some reply
    /\ In reply (responses message)
    /\ (exists before after_,
          reply = (before ++ dq ++ message ++ dq ++ after_)%string)
    /\ processWithLocalAI message ctx' random = Some reply.
Proof.
  intros H0 H1. unfold processWithLocalAI.
  change (List.length (responses message)) with 5%nat.
  pose proof (randomIndex_range random 5 H0 H1 ltac:(lia)) as Hi.
  set (i := randomIndex random 5) in *.
  assert (Hcases : i = 0 \/ i = 1 \/ i = 2 \/ i = 3 \/ i = 4) by lia.
  destruct Hcases as [E|[E|[E|[E|E]]]]; rewrite E; unfold responses;
    (eexists; split; [reflexivity|]; split;
     [cbn [In]; repeat (try (left; reflexivity); right)
     |split; [eexists; eexists; reflexivity|reflexivity]]).
Qed.

Lemma reply_quotes_the_message_sample :
  exists reply,
    processWithLocalAI (context := message) "Hello" None (1 # 2) = Some reply
    /\ In reply (responses "Hello")
    /\ (exists before after_,
          reply = (before ++ dq ++ "Hello" ++ dq ++ after_)%string)
    /\ processWithLocalAI "Hello" (Some (messages greeted)) (1 # 2) = Some reply.
Proof.
  apply (reply_quotes_the_message "Hello" None (Some (messages greeted)) (1 # 2)).
  - discriminate.
  - reflexivity.
Defined.

(** X29: whatever [Math.random()] draws and whatever audio is handed in,
    [transcribeAudio] answers with one of its five sample sentences, which
    is never [undefined] and never empty: the voice handler's 'Could not
    transcribe audio' answer cannot occur. *)
Theorem transcription_is_never_empty {audio : Type}
    (audioData audioData' : audio) (random : Q) :
  (0 <= random)%Q -> (random < 1)%Q ->
  exists transcribed,
    transcribeAudio audioData random = Some transcribed
    /\ In transcribed sampleTranscriptions
    /\ Routes.truthy (transcribeAudio audioData random) = true
    /\ transcribeAudio audioData' random = Some transcribed.
Proof.
  intros H0 H1. unfold transcribeAudio.
  change (List.length sampleTranscriptions) with 5%nat.
  pose proof (randomIndex_range random 5 H0 H1 ltac:(lia)) as Hi.
  set (i := randomIndex random 5) in *.
  assert (Hcases : i = 0 \/ i = 1 \/ i = 2 \/ i = 3 \/ i = 4) by lia.
  destruct Hcases as [E|[E|[E|[E|E]]]]; rewrite E;
    (eexists; split; [reflexivity|]; split;
     [cbn [In sampleTranscriptions]; repeat (try (left; reflexivity); right)
     |split; reflexivity]).
Qed.

Lemma transcription_is_never_empty_sample :
  exists transcribed,
    transcribeAudio "UklGRg=="%string (9 # 10) = Some transcribed
    /\ In transcribed sampleTranscriptions
    /\ Routes.truthy (transcribeAudio "UklGRg=="%string (9 # 10)) = true
    /\ transcribeAudio ""%string (9 # 10) = Some transcribed.
Proof.
  apply (transcription_is_never_empty "UklGRg=="%string ""%string (9 # 10)).
  - discriminate.
  - reflexivity.
Defined.

Lemma append_empty (s : string) : (s ++ "")%string = s.
Proof.
  induction s as [|ch s IH]; cbn; [reflexivity|]. rewrite IH. reflexivity.
Qed.

Lemma firstChars_all (n : nat) (s : string) :
  (String.length s <= n)%nat -> firstChars n s = s.
Proof.
  intros H. unfold firstChars. rewrite firstn_all2.
  - apply string_of_list_ascii_of_string.
  - clear -H. revert n H.
    induction s as [|ch s IH]; intros n H; cbn in *; [lia|].
    destruct n; [lia|]. specialize (IH n). lia.
Qed.

Lemma JS_substring_whole (s : string) (n : nat) :
  (String.length s <= n)%nat -> JS.substring s 0 n = s.
Proof.
  intros H. unfold JS.substring.
  rewrite (Nat.min_r n (String.length s)) by exact H.
  rewrite Nat.min_0_l, Nat.max_0_l, Nat.sub_0_r, substring_firstChars.
  apply firstChars_all. apply Nat.le_refl.
Qed.

(** Trimming. *)
Lemma length_trimStart (s : string) :
  (String.length (JS.trimStart s) <= String.length s)%nat.
Proof.
  induction s as [|c s IH]; cbn [JS.trimStart]; [apply Nat.le_refl|].
  destruct (JS.isWhiteSpace c); cbn [String.length]; lia.
Qed.

Lemma length_trimEnd (s : string) :
  (String.length (JS.trimEnd s) <= String.length s)%nat.
Proof.
  induction s as [|c s IH]; cbn [JS.trimEnd]; [apply Nat.le_refl|].
  destruct (JS.trimEnd s) as [|c' r].
  - destruct (JS.isWhiteSpace c); cbn [String.length] in *; lia.
  - cbn [String.length] in *. lia.
Qed.

Lemma length_trim (s : string) :
  (String.length (JS.trim s) <= String.length s)%nat.
Proof.
  unfold JS.trim.
  pose proof (length_trimEnd (JS.trimStart s)).
  pose proof (length_trimStart s). lia.
Qed.

Lemma trimEnd_append (a b : string) :
  JS.trimEnd b <> ""%string -> JS.trimEnd (a ++ b) = (a ++ JS.trimEnd b)%string.
Proof.
  intros Hb.
  induction a as [|c a IH]; cbn [String.append JS.trimEnd]; [reflexivity|].
  rewrite IH.
  destruct (a ++ JS.trimEnd b)%string as [|c' r] eqn:E; [|reflexivity].
  exfalso. destruct a; cbn in E; [exact (Hb E)|discriminate E].
Qed.

(** A text that trimming leaves alone does not start with white space. *)
Lemma trimmed_head (c : ascii) (s : string) :
  JS.trim (String c s) = String c s -> JS.isWhiteSpace c = false.
Proof.
  intros H. destruct (JS.isWhiteSpace c) eqn:E; [|reflexivity].
  exfalso. unfold JS.trim in H. cbn [JS.trimStart] in H. rewrite E in H.
  pose proof (length_trimEnd (JS.trimStart s)) as H1.
  pose proof (length_trimStart s) as H2.
  rewrite H in H1. cbn [String.length] in H1. lia.
Qed.

(** The title of a conversation the text handler creates, against what
    [generateTitle()] computes once the text is appended. *)
Lemma titled_as_generated (message : string) :
  (String.length message <= 50)%nat \/ JS.trim message = message ->
  JS.trim (initialTitle message)
  = (if (50 <? String.length (JS.trim message))%nat
     then (JS.substring (JS.trim message) 0 50 ++ "...")%string
     else JS.trim message).
Proof.
  intros [Hshort|Htrim].
  - pose proof (length_trim message) as Hl.
    destruct (Nat.ltb_spec 50 (String.length (JS.trim message))) as [H|_];
      [lia|].
    unfold initialTitle.
    destruct (Nat.ltb_spec 50 (String.length message)) as [H|_]; [lia|].
    rewrite JS_substring_whole by exact Hshort.
    rewrite append_empty. reflexivity.
  - rewrite Htrim. unfold initialTitle.
    destruct (Nat.ltb_spec 50 (String.length message)) as [Hlong|Hshort].
    + destruct message as [|c s]; [cbn in Hlong; lia|].
      pose proof (trimmed_head c s Htrim) as Hc.
      rewrite JS_substring_head by lia.
      unfold firstChars. cbn [list_ascii_of_string firstn string_of_list_ascii
                               String.append].
      unfold JS.trim. cbn [JS.trimStart]. rewrite Hc.
      change (String c (?x ++ "..."))%string
        with (String c x ++ "...")%string.
      rewrite trimEnd_append by discriminate. reflexivity.
    + rewrite JS_substring_whole by exact Hshort.
      rewrite append_empty. exact Htrim.
Qed.

(** What is in memory once the text handler has constructed the
    conversation and appended the text. *)
Lemma startWithText_memory (owner message language : string)
    (model : aiModelKind) (tc tu tl tp tn ts : Z) :
  let c := snd (Routes.startWithText owner message language model
                  tc tu tl tp tn ts) in
  title c = Some (JS.trim (initialTitle message))
  /\ messages c = [castMessage tp (Routes.userText message language)].
Proof.
  cbv zeta. unfold Routes.startWithText.
  change (snd (addMessage ?d tp tn ts ?c))
    with (runAppend (mkAppend d tp tn ts) c).
  rewrite runAppend_title, runAppend_messages. split; reflexivity.
Qed.

(** X30: the title the text handler gives a conversation it creates, as
    the schema stores it, is what [generateTitle()] computes once the text
    is appended as the first user message, whenever the text has at most
    50 characters or has no white space at either end: the trimmed text up
    to 50 characters, else its first 50 characters and '...'; it never
    exceeds 53 characters. *)
Theorem initialTitle_matches_generateTitle
    (owner message language : string) (model : aiModelKind)
    (tc tu tl tp tn ts : Z) :
  (String.length message <= 50)%nat \/ JS.trim message = message ->
  let c := snd (Routes.startWithText owner message language model
                  tc tu tl tp tn ts) in
  exists t,
    title c = Some t
    /\ result generateTitle c = Value t
    /\ (String.length t <= 53)%nat
    /\ ((String.length message <= 50)%nat -> t = JS.trim message).
Proof.
  intros H c.
  destruct (startWithText_memory owner message language model tc tu tl tp tn ts)
    as [Ht Hm]. fold c in Ht, Hm.
  exists (JS.trim (initialTitle message)).
  split; [exact Ht|].
  assert (Hg : result generateTitle c = Value (JS.trim (initialTitle message))).
  { unfold result, generateTitle, bind, get. cbn [fst]. rewrite Hm.
    cbn [find isUser castMessage Routes.userText type dataType messageType_eqb
         content dataContent].
    rewrite (titled_as_generated message H). reflexivity. }
  split; [exact Hg|]. split.
  - rewrite (titled_as_generated message H).
    destruct (Nat.ltb_spec 50 (String.length (JS.trim message))) as [Hl|Hl];
      [|lia].
    rewrite length_append, JS_substring_head, length_firstChars by lia.
    cbn [String.length]. lia.
  - intros Hshort. rewrite (titled_as_generated message H).
    pose proof (length_trim message) as Hl.
    destruct (Nat.ltb_spec 50 (String.length (JS.trim message))) as [Hl'|_];
      [lia|reflexivity].
Qed.

Lemma initialTitle_matches_generateTitle_sample :
  (exists t,
     title (snd (Routes.startWithText "alice" "  Hello " "en" local
                   1001 1002 1003 1004 1005 1006)) = Some t
     /\ t = "Hello"%string)
  /\ (exists t,
        result generateTitle
          (snd (Routes.startWithText "alice" eighty "" local
                  1001 1002 1003 1004 1005 1006)) = Value t
        /\ String.length t = 53%nat).
Proof.
  split.
  - destruct (initialTitle_matches_generateTitle "alice" "  Hello " "en" local
                1001 1002 1003 1004 1005 1006) as (t & Ht & _ & _ & Hs).
    + left. cbn. lia.
    + exists t. split; [exact Ht|]. apply Hs. cbn. lia.
  - destruct (initialTitle_matches_generateTitle "alice" eighty "" local
                1001 1002 1003 1004 1005 1006) as (t & Ht & Hg & _).
    + right. reflexivity.
    + exists t. split; [exact Hg|].
      cbv zeta in Ht. vm_compute in Ht. injection Ht as <-. reflexivity.
Defined.

End AssistantProps.
